(** * careamics_restoration.config.algorithm

    A shallow embedding of [src/careamics_restoration/config/algorithm.py]:
    the three string-backed enumerations, the [ModelParameters] and
    [Algorithm] pydantic models, the [num_filter_base_must_even] field
    validator, and the construction, serialization, comparison and
    attribute-assignment behaviour that the class declarations select.

    The module is declarative: what a declaration such as
    [depth: int = Field(default=2, ge=1, le=10)] does when an object is built
    is decided by pydantic (version 2: the source imports [ConfigDict] and
    [field_validator]).  The part headed pydantic below embeds exactly the
    part of that behaviour the declarations of this file reach; every
    definition names the declaration it gives meaning to.

    Inputs are the raw field values of a call, taken after pydantic's
    coercion of each to the annotated basic type: an integer for an [int]
    field, a float for a [float] field, a boolean for a [bool] field, a
    string or an enumeration member for an enumeration field, and for the
    nested model either the mapping of its own fields, as a configuration
    file gives it, or an existing [ModelParameters] object. *)

From Stdlib Require Import ZArith Lia Bool List String Ascii DecimalString.
From Stdlib Require Import Floats.
Import ListNotations.

#[local] Set Warnings "-inexact-float,-register-all".
#[local] Open Scope string_scope.
#[local] Open Scope Z_scope.

(** ** Enumerations (lines 7-34) *)

(** [class Losses(str, Enum)]: [N2V = "n2v"]. *)
Inductive Losses : Type := N2V.

(** [class Models(str, Enum)]: [UNET = "UNet"]. *)
Inductive Models : Type := UNET.

(** [class MaskingStrategies(str, Enum)]: [DEFAULT = "default"]. *)
Inductive MaskingStrategies : Type := DEFAULT.

(** A member of any of the three enumerations, as a Python object (the
    "enum handle"). *)
Inductive EnumHandle : Type :=
| LossesMember (m : Losses)
| ModelsMember (m : Models)
| MaskingStrategiesMember (m : MaskingStrategies).

(** What the three classes share: the members in definition order, the
    [.value] of a member, and the member as an object. *)
Class StrEnum (E : Type) : Type := {
  members : list E;
  value : E -> string;
  handle : E -> EnumHandle
}.

#[export] Instance Losses_StrEnum : StrEnum Losses := {|
  members := [N2V];
  value := fun m => match m with N2V => "n2v" end;
  handle := LossesMember
|}.

#[export] Instance Models_StrEnum : StrEnum Models := {|
  members := [UNET];
  value := fun m => match m with UNET => "UNet" end;
  handle := ModelsMember
|}.

#[export] Instance MaskingStrategies_StrEnum : StrEnum MaskingStrategies := {|
  members := [DEFAULT];
  value := fun m => match m with DEFAULT => "default" end;
  handle := MaskingStrategiesMember
|}.

(** The [.value] of a member as an object. *)
Definition handle_value (h : EnumHandle) : string :=
  match h with
  | LossesMember m => value m
  | ModelsMember m => value m
  | MaskingStrategiesMember m => value m
  end.

(** ** Python values *)

(** A Python object that is a [str]: a plain string, or a member of one of
    the enumerations above, which mix [str] in. *)
Inductive PyStr : Type :=
| Str (s : string)
| Member (h : EnumHandle).

(** The characters of a [str] object. *)
Definition str_of (v : PyStr) : string :=
  match v with
  | Str s => s
  | Member h => handle_value h
  end.

(** [a == b] on [str] objects: [str.__eq__] compares the characters, also
    when one side is a member of a [str]-mixing enumeration. *)
Definition str_eq (a b : PyStr) : bool := String.eqb (str_of a) (str_of b).

(** [isinstance(v, Enum)]. *)
Definition is_enum_handle (v : PyStr) : bool :=
  match v with
  | Str _ => false
  | Member _ => true
  end.

(** The values that reach a validator, recorded in an error as its
    [input]; [PyModelParameters d n] is a [ModelParameters] object with
    depth [d] and [n] filters. *)
Inductive PyVal : Type :=
| PyBool (b : bool)
| PyInt (z : Z)
| PyFloat (f : float)
| PyString (s : PyStr)
| PyDict (items : list (string * PyVal))
| PyModelParameters (d n : Z).

(** [str(n)] for an [int], which an f-string applies to [{num_filters}]. *)
Definition str_of_int (n : Z) : string :=
  NilZero.string_of_int (Z.to_int n).

(** ** Validation results *)

(** The [type] of a pydantic error with its context. *)
Inductive ErrorType : Type :=
| missing
| enum (expected : string)
| greater_than_equal (ge : PyVal)
| less_than_equal (le : PyVal)
| value_error (error : string)
| frozen_instance.

(** One line of a [ValidationError]: the kind, the field path, the
    offending input. *)
Record ErrorDetails : Type := {
  type : ErrorType;
  loc : list string;
  input : PyVal
}.

(** Either the validated value, or [ValidationError] with the errors of all
    fields in declaration order. *)
Inductive Result (A : Type) : Type :=
| Ok (a : A)
| ValidationError (errors : list ErrorDetails).

Arguments Ok {A} a.
Arguments ValidationError {A} errors.

(** The error lines of a result, none for a value. *)
Definition errors_of {A : Type} (r : Result A) : list ErrorDetails :=
  match r with
  | Ok _ => []
  | ValidationError es => es
  end.

(** The exception a validator function raises. *)
Inductive Exception : Type :=
| ValueError (message : string).

(** ** pydantic: fields, validators and errors *)

(** Model validation visits every field, also after an earlier field
    failed, and raises one [ValidationError] carrying all the errors. *)
Definition ap {A B : Type} (rf : Result (A -> B)) (ra : Result A) : Result B :=
  match rf, ra with
  | Ok f, Ok a => Ok (f a)
  | _, _ => ValidationError (errors_of rf ++ errors_of ra)
  end.

(** A function applied to a validated value. *)
Definition fmap {A B : Type} (f : A -> B) (r : Result A) : Result B :=
  match r with
  | Ok a => Ok (f a)
  | ValidationError es => ValidationError es
  end.

(** A field declared without a default: absent from the input it is
    reported as [missing], with the whole input mapping as [input]. *)
Definition required {I A : Type} (name : string) (data : PyVal)
    (validate : I -> Result A) (arg : option I) : Result A :=
  match arg with
  | Some v => validate v
  | None => ValidationError [{| type := missing; loc := [name]; input := data |}]
  end.

(** A field declared with a default: absent from the input it takes the
    default as it is.  No declaration of this file sets
    [validate_default], so the default does not pass through the field's
    validators. *)
Definition with_default {I A : Type} (default : A)
    (validate : I -> Result A) (arg : option I) : Result A :=
  match arg with
  | Some v => validate v
  | None => Ok default
  end.

(** [Field(ge=lo, le=hi)] on an [int] field.  The two bounds of a field of
    this file exclude each other, so at most one line is reported. *)
Definition int_ge_le (name : string) (lo hi : Z) (v : Z) : Result Z :=
  if v <? lo then
    ValidationError
      [{| type := greater_than_equal (PyInt lo); loc := [name]; input := PyInt v |}]
  else if hi <? v then
    ValidationError
      [{| type := less_than_equal (PyInt hi); loc := [name]; input := PyInt v |}]
  else Ok v.

(** [Field(ge=lo, le=hi)] on a [float] field.  pydantic tests the upper
    bound first; a NaN satisfies no bound and is rejected by that test. *)
Definition float_ge_le (name : string) (lo hi : float) (v : float) : Result float :=
  if negb (v <=? hi)%float then
    ValidationError
      [{| type := less_than_equal (PyFloat hi); loc := [name]; input := PyFloat v |}]
  else if negb (lo <=? v)%float then
    ValidationError
      [{| type := greater_than_equal (PyFloat lo); loc := [name]; input := PyFloat v |}]
  else Ok v.

(** [@field_validator(name)] in its default mode: the function runs on the
    value the field's own schema produced; a [ValueError] it raises becomes
    a [value_error] line carrying the exception's message. *)
Definition field_validator (name : string) (f : Z -> Exception + Z) (v : Z) : Result Z :=
  match f v with
  | inr v' => Ok v'
  | inl (ValueError m) =>
      ValidationError [{| type := value_error m; loc := [name]; input := PyInt v |}]
  end.

(** [repr] of a string without quotes or escapes in it. *)
Definition repr (s : string) : string := "'" ++ s ++ "'".

(** The [expected] text of an enumeration error: the [repr] of the members'
    values, the last one joined with [or]. *)
Fixpoint expected_values (vs : list string) : string :=
  match vs with
  | [] => ""
  | [v] => repr v
  | [v; w] => repr v ++ " or " ++ repr w
  | v :: rest => repr v ++ ", " ++ expected_values rest
  end.

(** A field annotated with an enumeration class [E]: the input is looked up
    among the members by value ([E(input)]); a string that is no member's
    value is an [enum] error. *)
Definition enum_schema {E : Type} `{StrEnum E} (name : string) (v : PyStr) : Result E :=
  match find (fun m => String.eqb (value m) (str_of v)) members with
  | Some m => Ok m
  | None =>
      ValidationError
        [{| type := enum (expected_values (map value members));
            loc := [name]; input := PyString v |}]
  end.

(** What [use_enum_values] selects for a validated member: its [.value]
    when set, the member itself otherwise. *)
Definition enum_stored {E : Type} `{StrEnum E} (use_enum_values : bool) (m : E) : PyStr :=
  if use_enum_values then Str (value m) else Member (handle m).

(** An enumeration field of a model whose configuration is read for
    [use_enum_values]: the conversion is part of validation. *)
Definition enum_field (E : Type) `{StrEnum E} (use_enum_values : bool)
    (name : string) (v : PyStr) : Result PyStr :=
  fmap (enum_stored use_enum_values) (enum_schema (E := E) name v).

(** Errors of a nested model are reported under the field's name. *)
Definition nested {A : Type} (name : string) (r : Result A) : Result A :=
  match r with
  | Ok a => Ok a
  | ValidationError es =>
      ValidationError
        (map (fun e => {| type := type e; loc := name :: loc e; input := input e |}) es)
  end.

(** [BaseModel.__setattr__] on a declared field: refused on a frozen
    model, validated under [validate_assignment], and otherwise a plain
    store of the assigned object. *)
Definition setattr {M V : Type} (frozen validate_assignment : bool) (name : string)
    (to_py : V -> PyVal) (validate : V -> Result V) (store : V -> M) (v : V) : Result M :=
  if frozen then
    ValidationError [{| type := frozen_instance; loc := [name]; input := to_py v |}]
  else if validate_assignment then fmap store (validate v)
  else Ok (store v).

#[local] Notation "f <*> a" := (ap f a) (at level 61, left associativity).

(** The configuration keys of [ConfigDict] that the claims are about.
    [protected_namespaces] only affects which field names a class may
    declare and has no run-time effect. *)
Record ConfigDict : Type := {
  use_enum_values : bool;
  frozen : bool;
  validate_assignment : bool
}.

(** pydantic's defaults, for a class that sets no [model_config]. *)
Definition default_config : ConfigDict :=
  {| use_enum_values := false; frozen := false; validate_assignment := false |}.

(** ** ModelParameters (lines 37-68) *)

Record ModelParameters : Type := {
  depth : Z;
  num_filters_base : Z
}.

(** The keyword arguments of [ModelParameters(...)]; [None] is an omitted
    argument. *)
Record ModelParametersArgs : Type := {
  depth_arg : option Z;
  num_filters_base_arg : option Z
}.

(** [ModelParameters] declares no [model_config]. *)
Definition ModelParameters_config : ConfigDict := default_config.

(** The two messages of lines 60 and 65. *)
Definition must_even_message (num_filters : Z) : string :=
  "Number of filters (base) must even (got " ++ str_of_int num_filters ++ ").".

Definition at_least_8_message (num_filters : Z) : string :=
  "Number of filters (base) must be at least 8 (got " ++ str_of_int num_filters ++ ").".

(** Lines 56-68.  Python's [%] takes the sign of the divisor, as [Z.modulo]
    does. *)
Definition num_filter_base_must_even (num_filters : Z) : Exception + Z :=
  if negb (num_filters mod 2 =? 0) then
    inl (ValueError (must_even_message num_filters))
  else if num_filters <? 8 then
    inl (ValueError (at_least_8_message num_filters))
  else inr num_filters.

(** One entry of that mapping, for an argument that is given. *)
Definition item {A : Type} (name : string) (f : A -> PyVal) (arg : option A)
    : list (string * PyVal) :=
  match arg with
  | Some v => [(name, f v)]
  | None => []
  end.

(** The keyword arguments as the mapping an error line reports. *)
Definition ModelParameters_data (args : ModelParametersArgs) : PyVal :=
  PyDict (item "depth" PyInt (depth_arg args)
          ++ item "num_filters_base" PyInt (num_filters_base_arg args)).

(** What a caller may give for a field annotated [ModelParameters]: the
    mapping of its fields, or an object of the class. *)
Inductive ModelParametersInput : Type :=
| Mapping (raw : ModelParametersArgs)
| Instance (p : ModelParameters).

(** Such an input as it appears in an error line. *)
Definition ModelParametersInput_data (v : ModelParametersInput) : PyVal :=
  match v with
  | Mapping raw => ModelParameters_data raw
  | Instance p => PyModelParameters (depth p) (num_filters_base p)
  end.

(** Line 51: [depth: int = Field(default=2, ge=1, le=10)]. *)
Definition depth_schema : Z -> Result Z := int_ge_le "depth" 1 10.

(** Lines 52 and 55: [num_filters_base: int = 96], with the validator
    registered for the field. *)
Definition num_filters_base_schema : Z -> Result Z :=
  field_validator "num_filters_base" num_filter_base_must_even.

(** The call [ModelParameters(...)] with keyword arguments [args]. *)
Definition ModelParameters_init (args : ModelParametersArgs) : Result ModelParameters :=
  Ok Build_ModelParameters
    <*> with_default 2 depth_schema (depth_arg args)
    <*> with_default 96 num_filters_base_schema (num_filters_base_arg args).

(** The invariants the class documents: a depth between 1 and 10, an even
    number of filters not below 8. *)
Definition ModelParameters_valid (p : ModelParameters) : Prop :=
  1 <= depth p <= 10 /\ Z.even (num_filters_base p) = true /\ 8 <= num_filters_base p.

(** [model_dump()]: the fields as a mapping, which has the shape of the
    keyword arguments. *)
Definition ModelParameters_model_dump (p : ModelParameters) : ModelParametersArgs :=
  {| depth_arg := Some (depth p); num_filters_base_arg := Some (num_filters_base p) |}.

(** [p == q] for two [ModelParameters]: [BaseModel.__eq__] compares the
    fields' values with [==]. *)
Definition ModelParameters_eq (p q : ModelParameters) : bool :=
  (depth p =? depth q) && (num_filters_base p =? num_filters_base q).

(** An assignment [p.depth = v] or [p.num_filters_base = v]. *)
Inductive ModelParametersAssignment : Type :=
| set_depth (v : Z)
| set_num_filters_base (v : Z).

(** The object [p] after the store an assignment asks for. *)
Definition ModelParameters_store (p : ModelParameters) (s : ModelParametersAssignment)
    : ModelParameters :=
  match s with
  | set_depth v => {| depth := v; num_filters_base := num_filters_base p |}
  | set_num_filters_base v => {| depth := depth p; num_filters_base := v |}
  end.

(** [setattr(p, name, v)] under the configuration of [ModelParameters]. *)
Definition ModelParameters_setattr (p : ModelParameters) (s : ModelParametersAssignment)
    : Result ModelParameters :=
  let fr := frozen ModelParameters_config in
  let va := validate_assignment ModelParameters_config in
  match s with
  | set_depth v =>
      setattr fr va "depth" PyInt depth_schema
        (fun v => ModelParameters_store p (set_depth v)) v
  | set_num_filters_base v =>
      setattr fr va "num_filters_base" PyInt num_filters_base_schema
        (fun v => ModelParameters_store p (set_num_filters_base v)) v
  end.

(** ** Algorithm (lines 71-122) *)

(** The stored fields.  [loss], [model] and [masking_strategy] are annotated
    with the enumeration classes; what an object holds there is what
    validation, or the default, put there: a [str] object. *)
Record Algorithm : Type := {
  loss : PyStr;
  model : PyStr;
  is_3D : bool;
  masking_strategy : PyStr;
  masked_pixel_percentage : float;
  model_parameters : ModelParameters
}.

(** The keyword arguments of [Algorithm(...)]; [model_parameters] is given
    as the nested mapping of its own fields or as an object. *)
Record AlgorithmArgs : Type := {
  loss_arg : option PyStr;
  model_arg : option PyStr;
  is_3D_arg : option bool;
  masking_strategy_arg : option PyStr;
  masked_pixel_percentage_arg : option float;
  model_parameters_arg : option ModelParametersInput
}.

(** Lines 109-112: [ConfigDict(use_enum_values=True, protected_namespaces=())]. *)
Definition Algorithm_config : ConfigDict :=
  {| use_enum_values := true; frozen := false; validate_assignment := false |}.

(** The right-hand sides of lines 120-122, evaluated once when the class
    statement runs.  Line 122 calls [ModelParameters()]; were that call to
    raise, so would the class statement. *)
Record AlgorithmDefaults : Type := {
  masking_strategy_default : PyStr;
  masked_pixel_percentage_default : float;
  model_parameters_default : ModelParameters
}.

Definition no_args : ModelParametersArgs :=
  {| depth_arg := None; num_filters_base_arg := None |}.

Definition Algorithm_defaults : Result AlgorithmDefaults :=
  Ok (Build_AlgorithmDefaults (Member (handle DEFAULT)) 0.2%float)
    <*> ModelParameters_init no_args.

(** The keyword arguments as the mapping a [missing] line reports. *)
Definition Algorithm_data (args : AlgorithmArgs) : PyVal :=
  PyDict (item "loss" PyString (loss_arg args)
          ++ item "model" PyString (model_arg args)
          ++ item "is_3D" PyBool (is_3D_arg args)
          ++ item "masking_strategy" PyString (masking_strategy_arg args)
          ++ item "masked_pixel_percentage" PyFloat (masked_pixel_percentage_arg args)
          ++ item "model_parameters" ModelParametersInput_data (model_parameters_arg args)).

(** Lines 115-122, one schema per field. *)
Definition loss_schema : PyStr -> Result PyStr :=
  enum_field Losses (use_enum_values Algorithm_config) "loss".

Definition model_schema : PyStr -> Result PyStr :=
  enum_field Models (use_enum_values Algorithm_config) "model".

Definition is_3D_schema : bool -> Result bool := Ok.

Definition masking_strategy_schema : PyStr -> Result PyStr :=
  enum_field MaskingStrategies (use_enum_values Algorithm_config) "masking_strategy".

Definition masked_pixel_percentage_schema : float -> Result float :=
  float_ge_le "masked_pixel_percentage" 0.1%float 20%float.

(** Line 122: a field annotated with the model class.  A mapping is
    validated as a call of [ModelParameters(...)] on it; an object of the
    class is taken as it is, for neither class sets [revalidate_instances]. *)
Definition model_parameters_schema (v : ModelParametersInput) : Result ModelParameters :=
  match v with
  | Mapping raw => nested "model_parameters" (ModelParameters_init raw)
  | Instance p => Ok p
  end.

(** Validation of the arguments against the fields in declaration order. *)
Definition Algorithm_validate (d : AlgorithmDefaults) (args : AlgorithmArgs)
    : Result Algorithm :=
  let data := Algorithm_data args in
  Ok Build_Algorithm
    <*> required "loss" data loss_schema (loss_arg args)
    <*> required "model" data model_schema (model_arg args)
    <*> required "is_3D" data is_3D_schema (is_3D_arg args)
    <*> with_default (masking_strategy_default d) masking_strategy_schema
          (masking_strategy_arg args)
    <*> with_default (masked_pixel_percentage_default d) masked_pixel_percentage_schema
          (masked_pixel_percentage_arg args)
    <*> with_default (model_parameters_default d) model_parameters_schema
          (model_parameters_arg args).

(** The call [Algorithm(...)] with keyword arguments [args]. *)
Definition Algorithm_init (args : AlgorithmArgs) : Result Algorithm :=
  match Algorithm_defaults with
  | Ok d => Algorithm_validate d args
  | ValidationError es => ValidationError es
  end.

(** [model_dump()]: the stored objects under their field names, the nested
    model as its own mapping. *)
Definition Algorithm_model_dump (a : Algorithm) : AlgorithmArgs :=
  {| loss_arg := Some (loss a);
     model_arg := Some (model a);
     is_3D_arg := Some (is_3D a);
     masking_strategy_arg := Some (masking_strategy a);
     masked_pixel_percentage_arg := Some (masked_pixel_percentage a);
     model_parameters_arg :=
       Some (Mapping (ModelParameters_model_dump (model_parameters a))) |}.

(** [a == b] for two [Algorithm] objects, field by field with Python's [==].
    Two distinct float objects are compared by value, so a field holding a
    NaN makes the result false. *)
Definition Algorithm_eq (a b : Algorithm) : bool :=
  str_eq (loss a) (loss b)
  && str_eq (model a) (model b)
  && Bool.eqb (is_3D a) (is_3D b)
  && str_eq (masking_strategy a) (masking_strategy b)
  && (masked_pixel_percentage a =? masked_pixel_percentage b)%float
  && ModelParameters_eq (model_parameters a) (model_parameters b).

(** An assignment to one field of an [Algorithm] object. *)
Inductive AlgorithmAssignment : Type :=
| set_loss (v : PyStr)
| set_model (v : PyStr)
| set_is_3D (v : bool)
| set_masking_strategy (v : PyStr)
| set_masked_pixel_percentage (v : float)
| set_model_parameters (v : ModelParameters).

(** The object [a] after the store an assignment asks for. *)
Definition Algorithm_store (a : Algorithm) (s : AlgorithmAssignment) : Algorithm :=
  match s with
  | set_loss v =>
      Build_Algorithm v (model a) (is_3D a) (masking_strategy a)
        (masked_pixel_percentage a) (model_parameters a)
  | set_model v =>
      Build_Algorithm (loss a) v (is_3D a) (masking_strategy a)
        (masked_pixel_percentage a) (model_parameters a)
  | set_is_3D v =>
      Build_Algorithm (loss a) (model a) v (masking_strategy a)
        (masked_pixel_percentage a) (model_parameters a)
  | set_masking_strategy v =>
      Build_Algorithm (loss a) (model a) (is_3D a) v
        (masked_pixel_percentage a) (model_parameters a)
  | set_masked_pixel_percentage v =>
      Build_Algorithm (loss a) (model a) (is_3D a) (masking_strategy a)
        v (model_parameters a)
  | set_model_parameters v =>
      Build_Algorithm (loss a) (model a) (is_3D a) (masking_strategy a)
        (masked_pixel_percentage a) v
  end.

(** The minimal call: [Algorithm(loss=l, model=m, is_3D=b)]. *)
Definition minimal_args (l m : PyStr) (b : bool) : AlgorithmArgs :=
  {| loss_arg := Some l; model_arg := Some m; is_3D_arg := Some b;
     masking_strategy_arg := None; masked_pixel_percentage_arg := None;
     model_parameters_arg := None |}.

(** [setattr(a, name, v)] under [Algorithm_config]. *)
Definition Algorithm_setattr (a : Algorithm) (s : AlgorithmAssignment) : Result Algorithm :=
  let fr := frozen Algorithm_config in
  let va := validate_assignment Algorithm_config in
  match s with
  | set_loss v =>
      setattr fr va "loss" PyString loss_schema
        (fun v => Algorithm_store a (set_loss v)) v
  | set_model v =>
      setattr fr va "model" PyString model_schema
        (fun v => Algorithm_store a (set_model v)) v
  | set_is_3D v =>
      setattr fr va "is_3D" PyBool is_3D_schema
        (fun v => Algorithm_store a (set_is_3D v)) v
  | set_masking_strategy v =>
      setattr fr va "masking_strategy" PyString masking_strategy_schema
        (fun v => Algorithm_store a (set_masking_strategy v)) v
  | set_masked_pixel_percentage v =>
      setattr fr va "masked_pixel_percentage" PyFloat masked_pixel_percentage_schema
        (fun v => Algorithm_store a (set_masked_pixel_percentage v)) v
  | set_model_parameters v =>
      setattr fr va "model_parameters"
        (fun p => PyModelParameters (depth p) (num_filters_base p)) Ok
        (fun v => Algorithm_store a (set_model_parameters v)) v
  end.

(** ** Vocabulary of the statements *)

(** An argument for [depth] that is omitted or within the declared bounds. *)
Definition depth_arg_ok (d : option Z) : Prop :=
  match d with
  | None => True
  | Some v => 1 <= v <= 10
  end.

(** An argument for [num_filters_base] that is omitted or passes the
    validator. *)
Definition num_filters_base_arg_ok (n : option Z) : Prop :=
  match n with
  | None => True
  | Some v => Z.even v = true /\ 8 <= v
  end.

(** The value a field with a default ends up with. *)
Definition or_default {A : Type} (default : A) (arg : option A) : A :=
  match arg with
  | Some v => v
  | None => default
  end.

(** The error line of [num_filters_base] for a [ValueError] with message [m]. *)
Definition num_filters_base_error (m : string) (n : Z) : ErrorDetails :=
  {| type := value_error m; loc := ["num_filters_base"]; input := PyInt n |}.

(** [needle in hay] for two strings. *)
Fixpoint contains (hay needle : string) : bool :=
  if String.prefix needle hay then true
  else match hay with
       | EmptyString => false
       | String _ rest => contains rest needle
       end.

(** Construction failed and some error line carries a [ValueError] whose
    message contains [m]. *)
Definition fails_with_message {A : Type} (r : Result A) (m : string) : Prop :=
  exists es e err,
    r = ValidationError es /\ In e es /\ type e = value_error err /\ contains err m = true.

(** The two messages in the specification's wording. *)
Definition spec_even_message (n : Z) : string := "must be even, got " ++ str_of_int n.

Definition spec_minimum_message (n : Z) : string := "must be at least 8, got " ++ str_of_int n.

(** The specification's sentence on [num_filters_base], at one value. *)
Definition num_filters_base_rule_as_specified (n : Z) : Prop :=
  let r := ModelParameters_init {| depth_arg := None; num_filters_base_arg := Some n |} in
  ((exists p, r = Ok p) <-> Z.even n = true /\ 8 <= n)
  /\ (Z.even n = false -> fails_with_message r (spec_even_message n))
  /\ (Z.even n = true -> n < 8 -> fails_with_message r (spec_minimum_message n)).

(** The specification's sentence on immutability: whatever an assignment
    does, the object is the one that was constructed. *)
Definition ModelParameters_immutable : Prop :=
  forall args p s p',
    ModelParameters_init args = Ok p -> ModelParameters_setattr p s = Ok p' -> p' = p.

Definition Algorithm_immutable : Prop :=
  forall args a s a',
    Algorithm_init args = Ok a -> Algorithm_setattr a s = Ok a' -> a' = a.

(** The specification's sentence on stored enumeration values: each of the
    three fields holds a plain string, no enumeration member. *)
Definition stores_enum_values (a : Algorithm) : Prop :=
  is_enum_handle (loss a) = false
  /\ is_enum_handle (model a) = false
  /\ is_enum_handle (masking_strategy a) = false.

(** The arguments [args] with the one for [loss] replaced. *)
Definition with_loss_arg (args : AlgorithmArgs) (v : option PyStr) : AlgorithmArgs :=
  {| loss_arg := v;
     model_arg := model_arg args;
     is_3D_arg := is_3D_arg args;
     masking_strategy_arg := masking_strategy_arg args;
     masked_pixel_percentage_arg := masked_pixel_percentage_arg args;
     model_parameters_arg := model_parameters_arg args |}.

(** The arguments [args] with the one for [masked_pixel_percentage]
    replaced. *)
Definition with_masked_pixel_percentage_arg (args : AlgorithmArgs) (v : option float)
    : AlgorithmArgs :=
  {| loss_arg := loss_arg args;
     model_arg := model_arg args;
     is_3D_arg := is_3D_arg args;
     masking_strategy_arg := masking_strategy_arg args;
     masked_pixel_percentage_arg := v;
     model_parameters_arg := model_parameters_arg args |}.

(** The error line of an input no member of [Losses] has as its value. *)
Definition loss_error (v : PyStr) : ErrorDetails :=
  {| type := enum "'n2v'"; loc := ["loss"]; input := PyString v |}.

(** The values [Algorithm_defaults] evaluates to. *)
Definition evaluated_defaults : AlgorithmDefaults :=
  {| masking_strategy_default := Member (MaskingStrategiesMember DEFAULT);
     masked_pixel_percentage_default := 0.2%float;
     model_parameters_default := {| depth := 2; num_filters_base := 96 |} |}.

(** ** Vocabulary of the further properties *)

(** A failure that carries at least one error line. *)
Definition nonempty_failure {A : Type} (r : Result A) : Prop :=
  match r with
  | Ok _ => True
  | ValidationError es => es <> []
  end.

(** An error line as reported for a field of the nested model [name]. *)
Definition under_field (name : string) (e : ErrorDetails) : ErrorDetails :=
  {| type := type e; loc := name :: loc e; input := input e |}.

(** The line of a mandatory field that is absent from the mapping [data]. *)
Definition missing_error (name : string) (data : PyVal) : ErrorDetails :=
  {| type := missing; loc := [name]; input := data |}.

(** Arguments of [ModelParameters(...)] that are each omitted or valid. *)
Definition ModelParameters_args_ok (raw : ModelParametersArgs) : Prop :=
  depth_arg_ok (depth_arg raw) /\ num_filters_base_arg_ok (num_filters_base_arg raw).

(** The object valid arguments describe, defaults filled in. *)
Definition ModelParameters_of_args (raw : ModelParametersArgs) : ModelParameters :=
  {| depth := or_default 2 (depth_arg raw);
     num_filters_base := or_default 96 (num_filters_base_arg raw) |}.

(** The error lines of the two fields, each taken on its own, in declaration
    order. *)
Definition ModelParameters_field_errors (raw : ModelParametersArgs) : list ErrorDetails :=
  (errors_of (with_default 2 depth_schema (depth_arg raw))
   ++ errors_of (with_default 96 num_filters_base_schema (num_filters_base_arg raw)))%list.

(** A mandatory enumeration argument that is given, with characters [chars]. *)
Definition enum_arg_is (chars : string) (arg : option PyStr) : Prop :=
  exists v, arg = Some v /\ str_of v = chars.

(** An optional enumeration argument that is omitted or has characters
    [chars]. *)
Definition optional_enum_arg_is (chars : string) (arg : option PyStr) : Prop :=
  match arg with
  | None => True
  | Some v => str_of v = chars
  end.

(** An argument for [masked_pixel_percentage] that is omitted or within the
    declared bounds. *)
Definition masked_pixel_percentage_arg_ok (arg : option float) : Prop :=
  match arg with
  | None => True
  | Some v => (0.1 <=? v)%float = true /\ (v <=? 20)%float = true
  end.

(** Arguments of [Algorithm(...)] under which every field validates; an
    object given for [model_parameters] always does. *)
Definition Algorithm_args_ok (args : AlgorithmArgs) : Prop :=
  enum_arg_is "n2v" (loss_arg args)
  /\ enum_arg_is "UNet" (model_arg args)
  /\ is_3D_arg args <> None
  /\ optional_enum_arg_is "default" (masking_strategy_arg args)
  /\ masked_pixel_percentage_arg_ok (masked_pixel_percentage_arg args)
  /\ match model_parameters_arg args with
     | None => True
     | Some (Mapping raw) => ModelParameters_args_ok raw
     | Some (Instance _) => True
     end.

(** The object valid arguments describe: the enumeration fields as their
    values where an argument was given, the defaults of lines 120-122
    elsewhere, an object given for [model_parameters] as it is. *)
Definition Algorithm_of_args (args : AlgorithmArgs) (b : bool) : Algorithm :=
  {| loss := Str "n2v";
     model := Str "UNet";
     is_3D := b;
     masking_strategy :=
       match masking_strategy_arg args with
       | None => Member (MaskingStrategiesMember DEFAULT)
       | Some _ => Str "default"
       end;
     masked_pixel_percentage := or_default 0.2%float (masked_pixel_percentage_arg args);
     model_parameters :=
       match model_parameters_arg args with
       | None => {| depth := 2; num_filters_base := 96 |}
       | Some (Mapping raw) => ModelParameters_of_args raw
       | Some (Instance p) => p
       end |}.

(** The error lines of the six fields, each taken on its own, in declaration
    order. *)
Definition Algorithm_field_errors (args : AlgorithmArgs) : list ErrorDetails :=
  (errors_of (required "loss" (Algorithm_data args) loss_schema (loss_arg args))
   ++ errors_of (required "model" (Algorithm_data args) model_schema (model_arg args))
   ++ errors_of (required "is_3D" (Algorithm_data args) is_3D_schema (is_3D_arg args))
   ++ errors_of (with_default (masking_strategy_default evaluated_defaults)
                   masking_strategy_schema (masking_strategy_arg args))
   ++ errors_of (with_default (masked_pixel_percentage_default evaluated_defaults)
                   masked_pixel_percentage_schema (masked_pixel_percentage_arg args))
   ++ errors_of (with_default (model_parameters_default evaluated_defaults)
                   model_parameters_schema (model_parameters_arg args)))%list.

(** The invariants of an [Algorithm] object: the characters of the three
    enumeration fields, the bounds of line 121, a valid nested model. *)
Definition Algorithm_valid (a : Algorithm) : Prop :=
  str_of (loss a) = "n2v"
  /\ str_of (model a) = "UNet"
  /\ str_of (masking_strategy a) = "default"
  /\ (0.1 <=? masked_pixel_percentage a)%float = true
  /\ (masked_pixel_percentage a <=? 20)%float = true
  /\ ModelParameters_valid (model_parameters a).

(** Two optional [str] arguments that are both omitted or have the same
    characters. *)
Definition same_characters (a b : option PyStr) : Prop :=
  option_map str_of a = option_map str_of b.

(** Two calls that differ at most in giving an enumeration member where the
    other gives its value, or the reverse. *)
Definition same_call_up_to_handles (args args' : AlgorithmArgs) : Prop :=
  same_characters (loss_arg args) (loss_arg args')
  /\ same_characters (model_arg args) (model_arg args')
  /\ is_3D_arg args = is_3D_arg args'
  /\ same_characters (masking_strategy_arg args) (masking_strategy_arg args')
  /\ masked_pixel_percentage_arg args = masked_pixel_percentage_arg args'
  /\ model_parameters_arg args = model_parameters_arg args'.

(** The arguments of [ModelParameters(...)] with every omitted one given as
    the default of its field. *)
Definition ModelParameters_explicit (raw : ModelParametersArgs) : ModelParametersArgs :=
  {| depth_arg := Some (or_default 2 (depth_arg raw));
     num_filters_base_arg := Some (or_default 96 (num_filters_base_arg raw)) |}.

(** The arguments of [Algorithm(...)] with every omitted optional one given
    as the default of lines 120-122, the nested model as the mapping of its
    two fields; an object given for it stays. *)
Definition Algorithm_explicit (args : AlgorithmArgs) : AlgorithmArgs :=
  {| loss_arg := loss_arg args;
     model_arg := model_arg args;
     is_3D_arg := is_3D_arg args;
     masking_strategy_arg :=
       Some (or_default (Member (MaskingStrategiesMember DEFAULT))
               (masking_strategy_arg args));
     masked_pixel_percentage_arg :=
       Some (or_default 0.2%float (masked_pixel_percentage_arg args));
     model_parameters_arg :=
       Some match model_parameters_arg args with
            | None => Mapping (ModelParameters_explicit no_args)
            | Some (Mapping raw) => Mapping (ModelParameters_explicit raw)
            | Some (Instance p) => Instance p
            end |}.

(** The invariants of the fields [Algorithm] declares itself. *)
Definition Algorithm_own_fields_valid (a : Algorithm) : Prop :=
  str_of (loss a) = "n2v"
  /\ str_of (model a) = "UNet"
  /\ str_of (masking_strategy a) = "default"
  /\ (0.1 <=? masked_pixel_percentage a)%float = true
  /\ (masked_pixel_percentage a <=? 20)%float = true.

(** The specification's sentence on the nested model: whatever the call,
    the object returned holds valid model parameters. *)
Definition nested_parameters_always_valid : Prop :=
  forall args a, Algorithm_init args = Ok a -> ModelParameters_valid (model_parameters a).

(** The specification's sentence on the round trip: every object a call
    returned is rebuilt from its dump, equal to itself. *)
Definition round_trip_as_specified : Prop :=
  forall args a,
    Algorithm_init args = Ok a ->
    exists b, Algorithm_init (Algorithm_model_dump a) = Ok b /\ Algorithm_eq a b = true.

(** A call that gives an existing [ModelParameters] object with 7 filters:
    the object [ModelParameters()] after the assignment
    [num_filters_base = 7]. *)
Definition odd_instance_args : AlgorithmArgs :=
  {| loss_arg := Some (Str "n2v"); model_arg := Some (Str "UNet");
     is_3D_arg := Some false; masking_strategy_arg := None;
     masked_pixel_percentage_arg := None;
     model_parameters_arg :=
       Some (Instance (ModelParameters_store {| depth := 2; num_filters_base := 96 |}
                         (set_num_filters_base 7))) |}.

(** An argument for [model_parameters] that is no object of the class. *)
Definition not_an_instance (arg : option ModelParametersInput) : Prop :=
  match arg with
  | Some (Instance _) => False
  | _ => True
  end.

(** The range line of [masked_pixel_percentage] for the input [v]. *)
Definition above_20_error (v : float) : ErrorDetails :=
  {| type := less_than_equal (PyFloat 20%float);
     loc := ["masked_pixel_percentage"]; input := PyFloat v |}.

Definition below_01_error (v : float) : ErrorDetails :=
  {| type := greater_than_equal (PyFloat 0.1%float);
     loc := ["masked_pixel_percentage"]; input := PyFloat v |}.

(** ** Lemmas on the validation functor *)

Lemma errors_of_ap {A B : Type} (rf : Result (A -> B)) (ra : Result A) :
  errors_of (rf <*> ra) = (errors_of rf ++ errors_of ra)%list.
Proof. destruct rf, ra; reflexivity. Qed.

Lemma ap_Ok_inv {A B : Type} (rf : Result (A -> B)) (ra : Result A) (b : B) :
  rf <*> ra = Ok b -> exists f a, rf = Ok f /\ ra = Ok a /\ b = f a.
Proof.
  destruct rf as [f|], ra as [a|]; simpl; intros H; try discriminate.
  exists f, a. injection H as <-. auto.
Qed.

Lemma ap_failed_r {A B : Type} (rf : Result (A -> B)) (es : list ErrorDetails) :
  rf <*> (ValidationError es : Result A) = ValidationError (errors_of rf ++ es).
Proof. destruct rf; reflexivity. Qed.

Lemma ap_failed_l {A B : Type} (es : list ErrorDetails) (ra : Result A) :
  (ValidationError es : Result (A -> B)) <*> ra = ValidationError (es ++ errors_of ra).
Proof. destruct ra; reflexivity. Qed.

(** ** The validator of [num_filters_base] *)

Lemma even_test (n : Z) : (n mod 2 =? 0) = Z.even n.
Proof. rewrite Zmod_even. destruct (Z.even n); reflexivity. Qed.

Lemma must_even_odd (n : Z) :
  Z.even n = false ->
  num_filter_base_must_even n = inl (ValueError (must_even_message n)).
Proof. intros H. unfold num_filter_base_must_even. now rewrite even_test, H. Qed.

Lemma must_even_small (n : Z) :
  Z.even n = true -> n < 8 ->
  num_filter_base_must_even n = inl (ValueError (at_least_8_message n)).
Proof.
  intros H Hlt. unfold num_filter_base_must_even. rewrite even_test, H. simpl.
  apply Z.ltb_lt in Hlt. now rewrite Hlt.
Qed.

Lemma must_even_accepts (n : Z) :
  Z.even n = true -> 8 <= n -> num_filter_base_must_even n = inr n.
Proof.
  intros H Hge. unfold num_filter_base_must_even. rewrite even_test, H. simpl.
  apply Z.ltb_ge in Hge. now rewrite Hge.
Qed.

Lemma must_even_returns (n v : Z) :
  num_filter_base_must_even n = inr v -> v = n /\ Z.even n = true /\ 8 <= n.
Proof.
  unfold num_filter_base_must_even. rewrite even_test.
  destruct (Z.even n); simpl; [|discriminate].
  destruct (n <? 8) eqn:E; [discriminate|].
  intros [= <-]. apply Z.ltb_ge in E. auto.
Qed.

Lemma messages_differ (n : Z) : must_even_message n <> at_least_8_message n.
Proof. unfold must_even_message, at_least_8_message. simpl. discriminate. Qed.

Lemma depth_schema_accepts (v : Z) : 1 <= v <= 10 -> depth_schema v = Ok v.
Proof.
  intros [Hlo Hhi]. unfold depth_schema, int_ge_le.
  apply Z.ltb_ge in Hlo, Hhi. now rewrite Hlo, Hhi.
Qed.

Lemma depth_schema_returns (v d : Z) : depth_schema v = Ok d -> d = v /\ 1 <= v <= 10.
Proof.
  unfold depth_schema, int_ge_le.
  destruct (v <? 1) eqn:Hlo; [discriminate|].
  destruct (10 <? v) eqn:Hhi; [discriminate|].
  intros [= <-]. apply Z.ltb_ge in Hlo, Hhi. lia.
Qed.

Lemma depth_field_accepts (d : option Z) :
  depth_arg_ok d -> with_default 2 depth_schema d = Ok (or_default 2 d).
Proof. destruct d as [v|]; simpl; [apply depth_schema_accepts | reflexivity]. Qed.

Lemma num_filters_base_schema_accepts (n : Z) :
  Z.even n = true -> 8 <= n -> num_filters_base_schema n = Ok n.
Proof.
  intros He Hge. unfold num_filters_base_schema, field_validator.
  now rewrite must_even_accepts.
Qed.

Lemma num_filters_base_schema_returns (n v : Z) :
  num_filters_base_schema n = Ok v -> v = n /\ Z.even n = true /\ 8 <= n.
Proof.
  unfold num_filters_base_schema, field_validator.
  destruct (num_filter_base_must_even n) as [[m]|w] eqn:E; [discriminate|].
  intros [= <-]. now apply must_even_returns.
Qed.

Lemma num_filters_base_schema_odd (n : Z) :
  Z.even n = false ->
  num_filters_base_schema n
  = ValidationError [num_filters_base_error (must_even_message n) n].
Proof.
  intros H. unfold num_filters_base_schema, field_validator.
  now rewrite must_even_odd.
Qed.

Lemma num_filters_base_schema_small (n : Z) :
  Z.even n = true -> n < 8 ->
  num_filters_base_schema n
  = ValidationError [num_filters_base_error (at_least_8_message n) n].
Proof.
  intros H Hlt. unfold num_filters_base_schema, field_validator.
  now rewrite must_even_small.
Qed.

Lemma num_filters_base_field_accepts (n : option Z) :
  num_filters_base_arg_ok n ->
  with_default 96 num_filters_base_schema n = Ok (or_default 96 n).
Proof.
  destruct n as [v|]; simpl; [|reflexivity].
  intros [He Hge]. now apply num_filters_base_schema_accepts.
Qed.

(** Every object [ModelParameters(...)] returns satisfies the invariants. *)
Lemma ModelParameters_init_valid (args : ModelParametersArgs) (p : ModelParameters) :
  ModelParameters_init args = Ok p -> ModelParameters_valid p.
Proof.
  unfold ModelParameters_init. intros H.
  apply ap_Ok_inv in H as (f & n & Hf & Hn & ->).
  apply ap_Ok_inv in Hf as (g & d & Hg & Hd & ->).
  injection Hg as <-. unfold ModelParameters_valid. simpl.
  destruct (depth_arg args) as [dv|]; simpl in Hd.
  - apply depth_schema_returns in Hd as [-> Hd].
    destruct (num_filters_base_arg args) as [nv|]; simpl in Hn.
    + apply num_filters_base_schema_returns in Hn as (-> & He & Hge). auto.
    + injection Hn as <-. repeat split; try lia; reflexivity.
  - injection Hd as <-.
    destruct (num_filters_base_arg args) as [nv|]; simpl in Hn.
    + apply num_filters_base_schema_returns in Hn as (-> & He & Hge).
      repeat split; try lia; assumption.
    + injection Hn as <-. repeat split; try lia; reflexivity.
Qed.

Lemma ModelParameters_init_accepts (d n : option Z) :
  depth_arg_ok d -> num_filters_base_arg_ok n ->
  ModelParameters_init {| depth_arg := d; num_filters_base_arg := n |}
  = Ok {| depth := or_default 2 d; num_filters_base := or_default 96 n |}.
Proof.
  intros Hd Hn. unfold ModelParameters_init. cbn [depth_arg num_filters_base_arg].
  now rewrite depth_field_accepts, num_filters_base_field_accepts.
Qed.

(** ** Floats *)

Lemma SFcompare_refl (x : spec_float) : x <> S754_nan -> SFcompare x x = Some Eq.
Proof.
  destruct x as [s|s| |s m e]; intros H; simpl; try congruence.
  - now destruct s.
  - rewrite Z.compare_refl.
    change (Pos.compare_cont Eq m m) with (Pos.compare m m).
    rewrite Pos.compare_refl. now destruct s.
Qed.

Lemma SFleb_not_nan (x y : spec_float) : SFleb x y = true -> y <> S754_nan.
Proof.
  intros H ->. unfold SFleb in H. now destruct x.
Qed.

(** A float that some bound is below is no NaN, so it equals itself. *)
Lemma float_eqb_refl (lo v : float) : (lo <=? v)%float = true -> (v =? v)%float = true.
Proof.
  rewrite leb_spec, eqb_spec. intros H%SFleb_not_nan.
  unfold SFeqb. now rewrite SFcompare_refl.
Qed.

Lemma masked_pixel_percentage_schema_accepts (v : float) :
  (0.1 <=? v)%float = true -> (v <=? 20)%float = true ->
  masked_pixel_percentage_schema v = Ok v.
Proof.
  intros Hlo Hhi. unfold masked_pixel_percentage_schema, float_ge_le.
  now rewrite Hlo, Hhi.
Qed.

Lemma masked_pixel_percentage_schema_returns (v w : float) :
  masked_pixel_percentage_schema v = Ok w ->
  w = v /\ (0.1 <=? v)%float = true /\ (v <=? 20)%float = true.
Proof.
  unfold masked_pixel_percentage_schema, float_ge_le.
  destruct (v <=? 20)%float; simpl; [|discriminate].
  destruct (0.1 <=? v)%float; simpl; [|discriminate].
  intros [= <-]. auto.
Qed.

(** ** Enumeration fields *)

Section EnumField.

Context {E : Type} `{StrEnum E}.

Lemma enum_schema_returns (name : string) (v : PyStr) (m : E) :
  enum_schema name v = Ok m -> In m members /\ value m = str_of v.
Proof.
  unfold enum_schema.
  destruct (find _ members) as [m'|] eqn:F; [|discriminate].
  intros [= <-]. apply find_some in F as [Hin Heq].
  apply String.eqb_eq in Heq. auto.
Qed.

(** A validated value validates again, to itself. *)
Lemma enum_field_idempotent (name : string) (v s : PyStr) :
  enum_field E true name v = Ok s -> enum_field E true name s = Ok s.
Proof.
  unfold enum_field. destruct (enum_schema name v) as [m|] eqn:Hv; [|discriminate].
  simpl. intros [= <-]. apply enum_schema_returns in Hv as [Hin _].
  unfold enum_schema. simpl str_of.
  destruct (find _ members) as [m'|] eqn:F.
  - apply find_some in F as [_ Heq]. apply String.eqb_eq in Heq.
    simpl. now rewrite Heq.
  - apply find_none with (x := m) in F; [|assumption].
    now rewrite String.eqb_refl in F.
Qed.

(** Under [use_enum_values] validation stores a plain string with the
    characters of the input. *)
Lemma enum_field_stores_value (name : string) (v s : PyStr) :
  enum_field E true name v = Ok s ->
  is_enum_handle s = false /\ str_of s = str_of v.
Proof.
  unfold enum_field. destruct (enum_schema name v) as [m|] eqn:Hv; [|discriminate].
  simpl. intros [= <-]. apply enum_schema_returns in Hv as [_ Hv]. auto.
Qed.

End EnumField.

(** ** Construction of an [Algorithm] *)

Lemma Algorithm_defaults_evaluated : Algorithm_defaults = Ok evaluated_defaults.
Proof. reflexivity. Qed.

Lemma Algorithm_init_validate (args : AlgorithmArgs) :
  Algorithm_init args = Algorithm_validate evaluated_defaults args.
Proof. reflexivity. Qed.

Lemma required_Ok_inv {I A : Type} (name : string) (data : PyVal)
    (validate : I -> Result A) (arg : option I) (a : A) :
  required name data validate arg = Ok a -> exists v, arg = Some v /\ validate v = Ok a.
Proof. destruct arg as [v|]; simpl; [eauto | discriminate]. Qed.

Lemma nested_Ok_inv {A : Type} (name : string) (r : Result A) (a : A) :
  nested name r = Ok a -> r = Ok a.
Proof. destruct r; simpl; [auto | discriminate]. Qed.

(** What each field of a constructed [Algorithm] comes from. *)
Lemma Algorithm_init_inv (args : AlgorithmArgs) (a : Algorithm) :
  Algorithm_init args = Ok a ->
  (exists v, loss_arg args = Some v /\ loss_schema v = Ok (loss a))
  /\ (exists v, model_arg args = Some v /\ model_schema v = Ok (model a))
  /\ is_3D_arg args = Some (is_3D a)
  /\ with_default (masking_strategy_default evaluated_defaults) masking_strategy_schema
       (masking_strategy_arg args) = Ok (masking_strategy a)
  /\ with_default (masked_pixel_percentage_default evaluated_defaults)
       masked_pixel_percentage_schema (masked_pixel_percentage_arg args)
     = Ok (masked_pixel_percentage a)
  /\ with_default (model_parameters_default evaluated_defaults) model_parameters_schema
       (model_parameters_arg args) = Ok (model_parameters a).
Proof.
  rewrite Algorithm_init_validate. unfold Algorithm_validate. intros H.
  apply ap_Ok_inv in H as (f6 & x6 & H & H6 & ->).
  apply ap_Ok_inv in H as (f5 & x5 & H & H5 & ->).
  apply ap_Ok_inv in H as (f4 & x4 & H & H4 & ->).
  apply ap_Ok_inv in H as (f3 & x3 & H & H3 & ->).
  apply ap_Ok_inv in H as (f2 & x2 & H & H2 & ->).
  apply ap_Ok_inv in H as (f1 & x1 & H & H1 & ->).
  injection H as <-. simpl.
  apply required_Ok_inv in H1, H2, H3.
  destruct H3 as (b & Hb & [= <-]).
  repeat split; assumption.
Qed.

(** The converse: fields that validate give the object. *)
Lemma Algorithm_init_intro (args : AlgorithmArgs) (l m : PyStr) (l' m' : PyStr)
    (b : bool) (s : PyStr) (f : float) (p : ModelParameters) :
  loss_arg args = Some l -> loss_schema l = Ok l' ->
  model_arg args = Some m -> model_schema m = Ok m' ->
  is_3D_arg args = Some b ->
  with_default (masking_strategy_default evaluated_defaults) masking_strategy_schema
    (masking_strategy_arg args) = Ok s ->
  with_default (masked_pixel_percentage_default evaluated_defaults)
    masked_pixel_percentage_schema (masked_pixel_percentage_arg args) = Ok f ->
  with_default (model_parameters_default evaluated_defaults) model_parameters_schema
    (model_parameters_arg args) = Ok p ->
  Algorithm_init args = Ok (Build_Algorithm l' m' b s f p).
Proof.
  intros Hl Hl' Hm Hm' Hb Hs Hf Hp.
  rewrite Algorithm_init_validate. unfold Algorithm_validate.
  rewrite Hl, Hm, Hb, Hs, Hf, Hp. simpl. rewrite Hl', Hm'. reflexivity.
Qed.

Lemma model_parameters_field_valid (arg : option ModelParametersInput)
    (p : ModelParameters) :
  not_an_instance arg ->
  with_default (model_parameters_default evaluated_defaults) model_parameters_schema arg
  = Ok p ->
  ModelParameters_valid p.
Proof.
  destruct arg as [[raw|q]|]; simpl; intros Hn.
  - intros H%nested_Ok_inv. now apply ModelParameters_init_valid in H.
  - destruct Hn.
  - intros [= <-]. unfold ModelParameters_valid. simpl. repeat split; try lia.
Qed.

Lemma model_parameters_schema_dump (p : ModelParameters) :
  ModelParameters_valid p ->
  model_parameters_schema (Mapping (ModelParameters_model_dump p)) = Ok p.
Proof.
  intros (Hd & He & Hge). unfold model_parameters_schema, ModelParameters_model_dump.
  rewrite ModelParameters_init_accepts by (simpl; auto).
  destruct p; reflexivity.
Qed.

Lemma loss_schema_rejects (v : PyStr) :
  str_of v <> "n2v" -> loss_schema v = ValidationError [loss_error v].
Proof.
  intros Hne. unfold loss_schema, enum_field, enum_schema.
  change (find _ members)
    with (if String.eqb "n2v" (str_of v) then Some N2V else None).
  destruct (String.eqb_spec "n2v" (str_of v)) as [Heq|_]; [|reflexivity].
  now elim Hne.
Qed.

(** ** ModelParameters: the claims *)

Lemma ModelParameters_init_depth_ok (d : option Z) (n : Z) :
  depth_arg_ok d ->
  ModelParameters_init {| depth_arg := d; num_filters_base_arg := Some n |}
  = fmap (Build_ModelParameters (or_default 2 d)) (num_filters_base_schema n).
Proof.
  intros Hd. unfold ModelParameters_init. cbn [depth_arg num_filters_base_arg].
  rewrite depth_field_accepts by assumption. cbn [with_default].
  destruct (num_filters_base_schema n); reflexivity.
Qed.

Lemma ModelParameters_init_filters_failed (d : option Z) (n : Z) (es : list ErrorDetails) :
  num_filters_base_schema n = ValidationError es ->
  ModelParameters_init {| depth_arg := d; num_filters_base_arg := Some n |}
  = ValidationError (errors_of (with_default 2 depth_schema d) ++ es).
Proof.
  intros H. unfold ModelParameters_init. cbn [depth_arg num_filters_base_arg with_default].
  rewrite H, ap_failed_r, errors_of_ap. reflexivity.
Qed.

Lemma depth_errors_loc (d : option Z) :
  Forall (fun e => loc e = ["depth"]) (errors_of (with_default 2 depth_schema d)).
Proof.
  destruct d as [v|]; simpl; [|constructor].
  unfold depth_schema, int_ge_le.
  destruct (v <? 1); [repeat constructor|].
  destruct (10 <? v); repeat constructor.
Qed.

(** C1, as the specification words it, fails at 7: the call fails, but the
    message of its only error line is
    ["Number of filters (base) must even (got 7)."], which does not contain
    ["must be even, got 7"]. *)
Lemma C1_messages_counterexample : ~ num_filters_base_rule_as_specified 7.
Proof.
  intros (_ & Hodd & _).
  destruct (Hodd eq_refl) as (es & e & err & Hr & Hin & Ht & Hc).
  vm_compute in Hr. injection Hr as <-.
  destruct Hin as [<-|[]]. cbn [type] in Ht. injection Ht as <-.
  vm_compute in Hc. discriminate.
Qed.

(** C1 (amended).  With [depth] omitted or within its bounds,
    [ModelParameters(num_filters_base=n)] succeeds exactly when [n] is even
    and at least 8.  For an odd [n] it fails with the single error line of
    the even check, whose message is [must_even_message n] and ends in
    ["(got n)."]; for an even [n] below 8 it fails with the single error line
    of the minimum check, whose message is [at_least_8_message n], that is
    ["Number of filters (base) must be at least 8 (got n)."]. *)
Theorem C1_num_filters_base_rule (d : option Z) (n : Z) :
  depth_arg_ok d ->
  ((exists p,
       ModelParameters_init {| depth_arg := d; num_filters_base_arg := Some n |} = Ok p)
   <-> Z.even n = true /\ 8 <= n)
  /\ (Z.even n = false ->
      ModelParameters_init {| depth_arg := d; num_filters_base_arg := Some n |}
      = ValidationError [num_filters_base_error (must_even_message n) n])
  /\ (Z.even n = true -> n < 8 ->
      ModelParameters_init {| depth_arg := d; num_filters_base_arg := Some n |}
      = ValidationError [num_filters_base_error (at_least_8_message n) n])
  /\ at_least_8_message n
     = "Number of filters (base) must be at least 8 (got " ++ str_of_int n ++ ")."
  /\ (exists text, must_even_message n = text ++ " (got " ++ str_of_int n ++ ").").
Proof.
  intros Hd. rewrite ModelParameters_init_depth_ok by assumption.
  split; [split|split; [|split; [|split]]].
  - intros [p Hp].
    destruct (num_filters_base_schema n) as [v|] eqn:E; [|discriminate].
    now apply num_filters_base_schema_returns in E.
  - intros [He Hge]. rewrite num_filters_base_schema_accepts by assumption.
    simpl. eauto.
  - intros Ho. now rewrite num_filters_base_schema_odd.
  - intros He Hlt. now rewrite num_filters_base_schema_small.
  - reflexivity.
  - now exists "Number of filters (base) must even".
Qed.

Lemma C1_num_filters_base_rule_witness :
  ModelParameters_init {| depth_arg := None; num_filters_base_arg := Some 6 |}
  = ValidationError [num_filters_base_error (at_least_8_message 6) 6].
Proof.
  exact (proj1 (proj2 (proj2 (C1_num_filters_base_rule None 6 I))) eq_refl eq_refl).
Defined.

(** C2.  For a value below 8 only one rule of [num_filters_base] is
    reported: the even check when the value is odd, the minimum check when
    it is even.  The errors of the call are those of [depth], if any,
    followed by that single line, and the two messages differ. *)
Theorem C2_first_failing_rule_only (d : option Z) (n : Z) :
  n < 8 ->
  (Z.even n = false ->
   ModelParameters_init {| depth_arg := d; num_filters_base_arg := Some n |}
   = ValidationError
       (errors_of (with_default 2 depth_schema d)
        ++ [num_filters_base_error (must_even_message n) n]))
  /\ (Z.even n = true ->
      ModelParameters_init {| depth_arg := d; num_filters_base_arg := Some n |}
      = ValidationError
          (errors_of (with_default 2 depth_schema d)
           ++ [num_filters_base_error (at_least_8_message n) n]))
  /\ Forall (fun e => loc e = ["depth"]) (errors_of (with_default 2 depth_schema d))
  /\ must_even_message n <> at_least_8_message n.
Proof.
  intros Hlt. split; [|split; [|split]].
  - intros Ho. apply ModelParameters_init_filters_failed.
    now apply num_filters_base_schema_odd.
  - intros He. apply ModelParameters_init_filters_failed.
    now apply num_filters_base_schema_small.
  - apply depth_errors_loc.
  - apply messages_differ.
Qed.

Lemma C2_first_failing_rule_only_witness :
  ModelParameters_init {| depth_arg := None; num_filters_base_arg := Some 7 |}
  = ValidationError [num_filters_base_error (must_even_message 7) 7]
  /\ ModelParameters_init {| depth_arg := None; num_filters_base_arg := Some 6 |}
     = ValidationError [num_filters_base_error (at_least_8_message 6) 6].
Proof.
  split.
  - exact (proj1 (C2_first_failing_rule_only None 7 eq_refl) eq_refl).
  - exact (proj1 (proj2 (C2_first_failing_rule_only None 6 eq_refl)) eq_refl).
Defined.

(** C6.  A depth between 1 and 10 is accepted, with [num_filters_base]
    omitted or valid.  A depth below 1, such as 0, and a depth above 10,
    such as 11, make the call fail, the first error line naming the field
    [depth], the bound and the offending value. *)
Theorem C6_depth_bounds (d : Z) (n : option Z) :
  (1 <= d <= 10 -> num_filters_base_arg_ok n ->
   ModelParameters_init {| depth_arg := Some d; num_filters_base_arg := n |}
   = Ok {| depth := d; num_filters_base := or_default 96 n |})
  /\ (d < 1 ->
      exists rest,
        ModelParameters_init {| depth_arg := Some d; num_filters_base_arg := n |}
        = ValidationError
            ({| type := greater_than_equal (PyInt 1); loc := ["depth"]; input := PyInt d |}
             :: rest))
  /\ (10 < d ->
      exists rest,
        ModelParameters_init {| depth_arg := Some d; num_filters_base_arg := n |}
        = ValidationError
            ({| type := less_than_equal (PyInt 10); loc := ["depth"]; input := PyInt d |}
             :: rest)).
Proof.
  split; [|split].
  - intros Hd Hn. now rewrite ModelParameters_init_accepts.
  - intros Hlt. unfold ModelParameters_init, depth_schema, int_ge_le.
    cbn [depth_arg num_filters_base_arg with_default].
    apply Z.ltb_lt in Hlt. rewrite Hlt.
    cbn [ap errors_of app]. eauto.
  - intros Hgt. unfold ModelParameters_init, depth_schema, int_ge_le.
    cbn [depth_arg num_filters_base_arg with_default].
    assert ((d <? 1) = false) as -> by (apply Z.ltb_ge; lia).
    apply Z.ltb_lt in Hgt. rewrite Hgt.
    cbn [ap errors_of app]. eauto.
Qed.

Lemma C6_depth_bounds_witness :
  ModelParameters_init {| depth_arg := Some 10; num_filters_base_arg := None |}
  = Ok {| depth := 10; num_filters_base := 96 |}
  /\ (exists rest,
        ModelParameters_init {| depth_arg := Some 0; num_filters_base_arg := None |}
        = ValidationError
            ({| type := greater_than_equal (PyInt 1); loc := ["depth"]; input := PyInt 0 |}
             :: rest))
  /\ (exists rest,
        ModelParameters_init {| depth_arg := Some 11; num_filters_base_arg := None |}
        = ValidationError
            ({| type := less_than_equal (PyInt 10); loc := ["depth"]; input := PyInt 11 |}
             :: rest)).
Proof.
  split; [|split].
  - refine (proj1 (C6_depth_bounds 10 None) _ I). split; discriminate.
  - exact (proj1 (proj2 (C6_depth_bounds 0 None)) eq_refl).
  - exact (proj2 (proj2 (C6_depth_bounds 11 None)) eq_refl).
Defined.

(** ** Algorithm: the claims *)

(** C3.  [Algorithm(loss="n2v", model="UNet", is_3D=False)] succeeds; the
    object's [masking_strategy] compares equal to ["default"] and has these
    characters, its [masked_pixel_percentage] is 0.2, and its
    [model_parameters] has depth 2 and 96 filters. *)
Theorem C3_minimal_construction_defaults :
  exists a,
    Algorithm_init (minimal_args (Str "n2v") (Str "UNet") false) = Ok a
    /\ str_eq (masking_strategy a) (Str "default") = true
    /\ str_of (masking_strategy a) = "default"
    /\ masked_pixel_percentage a = 0.2%float
    /\ depth (model_parameters a) = 2
    /\ num_filters_base (model_parameters a) = 96.
Proof. eexists. repeat split. Qed.

Lemma str_eq_refl (s : PyStr) : str_eq s s = true.
Proof. apply String.eqb_refl. Qed.

Lemma ModelParameters_eq_refl (p : ModelParameters) : ModelParameters_eq p p = true.
Proof. unfold ModelParameters_eq. now rewrite !Z.eqb_refl. Qed.

(** A stored [masking_strategy] validates to a plain string equal to it,
    which validates to itself. *)
Lemma masking_strategy_round_trip (arg : option PyStr) (s : PyStr) :
  with_default (masking_strategy_default evaluated_defaults) masking_strategy_schema arg
  = Ok s ->
  exists s',
    masking_strategy_schema s = Ok s'
    /\ str_eq s s' = true
    /\ masking_strategy_schema s' = Ok s'.
Proof.
  destruct arg as [v|]; simpl.
  - intros H. exists s. unfold masking_strategy_schema in *.
    apply enum_field_idempotent in H. split; [assumption|].
    split; [apply str_eq_refl | assumption].
  - intros [= <-]. exists (Str "default"). repeat split.
Qed.

Lemma masked_pixel_percentage_round_trip (arg : option float) (f : float) :
  with_default (masked_pixel_percentage_default evaluated_defaults)
    masked_pixel_percentage_schema arg = Ok f ->
  masked_pixel_percentage_schema f = Ok f /\ (f =? f)%float = true.
Proof.
  destruct arg as [v|]; simpl.
  - intros H. apply masked_pixel_percentage_schema_returns in H as (-> & Hlo & Hhi).
    split.
    + now apply masked_pixel_percentage_schema_accepts.
    + now apply float_eqb_refl with (lo := 0.1%float).
  - intros [= <-]. split; reflexivity.
Qed.

(** C4, as the specification words it, fails: the call that gives an
    existing [ModelParameters] object with 7 filters returns an object, and
    the call on the dump of that object fails at [num_filters_base]. *)
Lemma C4_round_trip_counterexample : ~ round_trip_as_specified.
Proof.
  intros H. destruct (H odd_instance_args _ eq_refl) as (b & Hb & _).
  vm_compute in Hb. discriminate.
Qed.

(** C4 (amended).  For an object [a] that [Algorithm(...)] returned and
    whose [model_parameters] satisfies the invariants, the call on
    [a.model_dump()] succeeds with an object [b] such that [a == b], and the
    call on [b.model_dump()] returns [b] itself. *)
Theorem C4_model_dump_round_trip (args : AlgorithmArgs) (a : Algorithm) :
  Algorithm_init args = Ok a ->
  ModelParameters_valid (model_parameters a) ->
  exists b,
    Algorithm_init (Algorithm_model_dump a) = Ok b
    /\ Algorithm_eq a b = true
    /\ Algorithm_init (Algorithm_model_dump b) = Ok b.
Proof.
  intros H Hv.
  apply Algorithm_init_inv in H
    as ((l & _ & Hl) & (m & _ & Hm) & _ & Hs & Hf & _).
  unfold loss_schema in Hl. apply enum_field_idempotent in Hl.
  unfold model_schema in Hm. apply enum_field_idempotent in Hm.
  apply masking_strategy_round_trip in Hs as (s' & Hs & Hss & Hs').
  apply masked_pixel_percentage_round_trip in Hf as [Hf Hff].
  pose proof (model_parameters_schema_dump _ Hv) as Hp.
  exists (Algorithm_store a (set_masking_strategy s')).
  split; [|split].
  - now apply Algorithm_init_intro
      with (l := loss a) (m := model a) (args := Algorithm_model_dump a).
  - unfold Algorithm_eq. cbn [Algorithm_store loss model is_3D masking_strategy
      masked_pixel_percentage model_parameters].
    now rewrite !str_eq_refl, Bool.eqb_reflx, Hss, Hff, ModelParameters_eq_refl.
  - now apply Algorithm_init_intro
      with (l := loss a) (m := model a)
           (args := Algorithm_model_dump (Algorithm_store a (set_masking_strategy s'))).
Qed.

Lemma C4_model_dump_round_trip_witness :
  exists b,
    Algorithm_init
      (Algorithm_model_dump
         {| loss := Str "n2v"; model := Str "UNet"; is_3D := false;
            masking_strategy := Member (MaskingStrategiesMember DEFAULT);
            masked_pixel_percentage := 0.2%float;
            model_parameters := {| depth := 2; num_filters_base := 96 |} |}) = Ok b
    /\ Algorithm_eq
         {| loss := Str "n2v"; model := Str "UNet"; is_3D := false;
            masking_strategy := Member (MaskingStrategiesMember DEFAULT);
            masked_pixel_percentage := 0.2%float;
            model_parameters := {| depth := 2; num_filters_base := 96 |} |} b = true
    /\ Algorithm_init (Algorithm_model_dump b) = Ok b.
Proof.
  refine (C4_model_dump_round_trip
            (minimal_args (Str "n2v") (Str "UNet") false) _ eq_refl _).
  split; [split; discriminate | split; [reflexivity | discriminate]].
Defined.

(** C5.  A [loss] whose characters are not ["n2v"], such as
    ["invalidloss"], makes [Algorithm(...)] fail whatever the other
    arguments are; the first error line is an [enum] error at [loss] that
    carries the rejected input and the expected text ['n2v']. *)
Theorem C5_loss_outside_enum (args : AlgorithmArgs) (v : PyStr) :
  str_of v <> "n2v" ->
  exists rest,
    Algorithm_init (with_loss_arg args (Some v)) = ValidationError (loss_error v :: rest)
    /\ type (loss_error v) = enum (expected_values (map value (members (E := Losses))))
    /\ input (loss_error v) = PyString v.
Proof.
  intros Hne. rewrite Algorithm_init_validate. unfold Algorithm_validate.
  cbn [with_loss_arg loss_arg model_arg is_3D_arg masking_strategy_arg
       masked_pixel_percentage_arg model_parameters_arg required].
  rewrite loss_schema_rejects by assumption.
  cbn [ap errors_of app]. eexists. repeat split.
Qed.

Lemma C5_loss_outside_enum_witness :
  exists rest,
    Algorithm_init (minimal_args (Str "invalidloss") (Str "UNet") false)
    = ValidationError (loss_error (Str "invalidloss") :: rest)
    /\ type (loss_error (Str "invalidloss"))
       = enum (expected_values (map value (members (E := Losses))))
    /\ input (loss_error (Str "invalidloss")) = PyString (Str "invalidloss").
Proof.
  refine (C5_loss_outside_enum (minimal_args (Str "n2v") (Str "UNet") false)
            (Str "invalidloss") _).
  discriminate.
Defined.

Lemma masked_pixel_percentage_failed (args : AlgorithmArgs) (v : float) (e : ErrorDetails) :
  masked_pixel_percentage_schema v = ValidationError [e] ->
  exists es,
    Algorithm_init (with_masked_pixel_percentage_arg args (Some v)) = ValidationError es
    /\ In e es.
Proof.
  intros H. rewrite Algorithm_init_validate. unfold Algorithm_validate.
  cbn [with_masked_pixel_percentage_arg loss_arg model_arg is_3D_arg masking_strategy_arg
       masked_pixel_percentage_arg model_parameters_arg with_default].
  rewrite H, ap_failed_r, ap_failed_l. eexists. split; [reflexivity|].
  apply in_or_app. left. apply in_or_app. right. now left.
Qed.

(** C7.  When the call without [masked_pixel_percentage] succeeds, so does
    the call with any value between 0.1 and 20, and the object differs only
    in that field.  With any value not between 0.1 and 20, such as 0.05 or
    20.5, the call fails whatever the other arguments are: a value that is
    not at most 20 gives the [less_than_equal] line of the field, any other
    value that is not at least 0.1 gives its [greater_than_equal] line, each
    carrying the bound and the offending value.  A call that succeeds was
    given a value within the bounds. *)
Theorem C7_masked_pixel_percentage_bounds (args : AlgorithmArgs) (v : float) :
  (forall a,
      (0.1 <=? v)%float = true -> (v <=? 20)%float = true ->
      Algorithm_init (with_masked_pixel_percentage_arg args None) = Ok a ->
      Algorithm_init (with_masked_pixel_percentage_arg args (Some v))
      = Ok (Algorithm_store a (set_masked_pixel_percentage v)))
  /\ ((v <=? 20)%float = false ->
      exists es,
        Algorithm_init (with_masked_pixel_percentage_arg args (Some v))
        = ValidationError es
        /\ In (above_20_error v) es)
  /\ ((v <=? 20)%float = true -> (0.1 <=? v)%float = false ->
      exists es,
        Algorithm_init (with_masked_pixel_percentage_arg args (Some v))
        = ValidationError es
        /\ In (below_01_error v) es)
  /\ (forall a,
        Algorithm_init (with_masked_pixel_percentage_arg args (Some v)) = Ok a ->
        (0.1 <=? v)%float = true /\ (v <=? 20)%float = true).
Proof.
  split; [|split; [|split]].
  - intros a Hlo Hhi H.
    apply Algorithm_init_inv in H
      as ((l & Hl & Hl') & (m & Hm & Hm') & Hb & Hs & _ & Hp).
    cbn [with_masked_pixel_percentage_arg loss_arg model_arg is_3D_arg
         masking_strategy_arg model_parameters_arg] in *.
    apply Algorithm_init_intro with (l := l) (m := m); try assumption.
    cbn [with_masked_pixel_percentage_arg masked_pixel_percentage_arg with_default].
    now apply masked_pixel_percentage_schema_accepts.
  - intros Hhi. apply masked_pixel_percentage_failed.
    unfold masked_pixel_percentage_schema, float_ge_le. now rewrite Hhi.
  - intros Hhi Hlo. apply masked_pixel_percentage_failed.
    unfold masked_pixel_percentage_schema, float_ge_le. now rewrite Hhi, Hlo.
  - intros a H.
    apply Algorithm_init_inv in H as (_ & _ & _ & _ & Hf & _).
    cbn [with_masked_pixel_percentage_arg masked_pixel_percentage_arg with_default] in Hf.
    now apply masked_pixel_percentage_schema_returns in Hf.
Qed.

Lemma C7_masked_pixel_percentage_bounds_witness :
  Algorithm_init
    (with_masked_pixel_percentage_arg
       (minimal_args (Str "n2v") (Str "UNet") true) (Some 20%float))
  = Ok {| loss := Str "n2v"; model := Str "UNet"; is_3D := true;
          masking_strategy := Member (MaskingStrategiesMember DEFAULT);
          masked_pixel_percentage := 20%float;
          model_parameters := {| depth := 2; num_filters_base := 96 |} |}
  /\ (exists es,
        Algorithm_init
          (with_masked_pixel_percentage_arg
             (minimal_args (Str "n2v") (Str "UNet") true) (Some 0.05%float))
        = ValidationError es
        /\ In (below_01_error 0.05%float) es)
  /\ (exists es,
        Algorithm_init
          (with_masked_pixel_percentage_arg
             (minimal_args (Str "n2v") (Str "UNet") true) (Some 20.5%float))
        = ValidationError es
        /\ In (above_20_error 20.5%float) es).
Proof.
  split; [|split].
  - exact (proj1 (C7_masked_pixel_percentage_bounds
                    (minimal_args (Str "n2v") (Str "UNet") true) 20%float)
                 _ eq_refl eq_refl eq_refl).
  - exact (proj1 (proj2 (proj2 (C7_masked_pixel_percentage_bounds
                                  (minimal_args (Str "n2v") (Str "UNet") true)
                                  0.05%float)))
                 eq_refl eq_refl).
  - exact (proj1 (proj2 (C7_masked_pixel_percentage_bounds
                           (minimal_args (Str "n2v") (Str "UNet") true) 20.5%float))
                 eq_refl).
Defined.

(** C8, as the specification words it, fails: the call that gives an
    existing [ModelParameters] object with 7 filters succeeds and stores
    that object, whose number of filters is odd. *)
Lemma C8_invalid_instance_counterexample : ~ nested_parameters_always_valid.
Proof.
  intros H. destruct (H odd_instance_args _ eq_refl) as (_ & He & _).
  discriminate.
Qed.

(** C8 (amended).  When [model_parameters] is omitted or given as a mapping,
    the [model_parameters] of the object [Algorithm(...)] returns satisfies
    the invariants of [ModelParameters]: omitted, the object holds what the
    call [ModelParameters()] returns; given as a mapping, what the call of
    [ModelParameters(...)] on the mapping returns.  An existing object given
    for it is stored as it is. *)
Theorem C8_nested_parameters_valid (args : AlgorithmArgs) (a : Algorithm) :
  Algorithm_init args = Ok a ->
  (not_an_instance (model_parameters_arg args) ->
   ModelParameters_valid (model_parameters a))
  /\ (model_parameters_arg args = None ->
      ModelParameters_init no_args = Ok (model_parameters a))
  /\ (forall raw,
        model_parameters_arg args = Some (Mapping raw) ->
        ModelParameters_init raw = Ok (model_parameters a))
  /\ (forall p,
        model_parameters_arg args = Some (Instance p) -> model_parameters a = p).
Proof.
  intros H. apply Algorithm_init_inv in H as (_ & _ & _ & _ & _ & Hp).
  split; [|split; [|split]].
  - intros Hn. now apply model_parameters_field_valid in Hp.
  - intros Hnone. rewrite Hnone in Hp. simpl in Hp. now injection Hp as <-.
  - intros raw Hraw. rewrite Hraw in Hp. simpl in Hp. now apply nested_Ok_inv in Hp.
  - intros p Hinst. rewrite Hinst in Hp. simpl in Hp. now injection Hp as <-.
Qed.

Lemma C8_nested_parameters_valid_witness :
  ModelParameters_valid {| depth := 3; num_filters_base := 8 |}.
Proof.
  exact (proj1 (C8_nested_parameters_valid
                  {| loss_arg := Some (Member (LossesMember N2V));
                     model_arg := Some (Str "UNet");
                     is_3D_arg := Some true;
                     masking_strategy_arg := Some (Str "default");
                     masked_pixel_percentage_arg := Some 0.1%float;
                     model_parameters_arg :=
                       Some (Mapping {| depth_arg := Some 3;
                                        num_filters_base_arg := Some 8 |}) |}
                  _ eq_refl) I).
Defined.

(** Where an argument is validated, the stored value is the plain string:
    always for [loss] and [model], and for [masking_strategy] when it is
    given. *)
Lemma validated_enum_fields_store_values (args : AlgorithmArgs) (a : Algorithm) :
  Algorithm_init args = Ok a ->
  is_enum_handle (loss a) = false
  /\ is_enum_handle (model a) = false
  /\ (masking_strategy_arg args <> None -> is_enum_handle (masking_strategy a) = false).
Proof.
  intros H. apply Algorithm_init_inv in H
    as ((l & _ & Hl) & (m & _ & Hm) & _ & Hs & _ & _).
  split; [|split].
  - now apply enum_field_stores_value in Hl.
  - now apply enum_field_stores_value in Hm.
  - destruct (masking_strategy_arg args) as [v|]; [|congruence].
    intros _. simpl in Hs. now apply enum_field_stores_value in Hs.
Qed.

(** C9 at the minimal call: [masking_strategy] is omitted, the default of
    line 120 is stored without validation, and the object holds the member
    [MaskingStrategies.DEFAULT] itself, not the string ["default"]. *)
Theorem C9_default_masking_strategy_is_handle :
  exists a,
    Algorithm_init (minimal_args (Str "n2v") (Str "UNet") false) = Ok a
    /\ masking_strategy a = Member (MaskingStrategiesMember DEFAULT)
    /\ ~ stores_enum_values a.
Proof.
  eexists. split; [reflexivity|]. split; [reflexivity|].
  intros (_ & _ & H). discriminate.
Qed.

(** C10, as the specification words it, fails for both classes: on the
    object [ModelParameters()] the assignment [num_filters_base = 7]
    succeeds and leaves an odd number of filters; on a constructed
    [Algorithm] the assignment [masked_pixel_percentage = 100.0] succeeds. *)
Lemma C10_objects_are_mutable :
  ~ ModelParameters_immutable /\ ~ Algorithm_immutable
  /\ (exists p p',
        ModelParameters_init no_args = Ok p
        /\ ModelParameters_setattr p (set_num_filters_base 7) = Ok p'
        /\ ~ ModelParameters_valid p').
Proof.
  split; [|split].
  - intros H.
    specialize (H no_args {| depth := 2; num_filters_base := 96 |}
                  (set_num_filters_base 7) _ eq_refl eq_refl).
    discriminate.
  - intros H.
    specialize (H (minimal_args (Str "n2v") (Str "UNet") false) _
                  (set_masked_pixel_percentage 100%float) _ eq_refl eq_refl).
    apply (f_equal (fun a => (masked_pixel_percentage a <=? 20)%float)) in H.
    vm_compute in H. discriminate.
  - do 2 eexists. split; [reflexivity|]. split; [reflexivity|].
    intros (_ & He & _). discriminate.
Qed.

(** C10 (amended).  Neither class is frozen or validates assignments: an
    assignment to a field of an object of either class succeeds and stores
    the assigned value as it is, leaving the other fields unchanged.  The
    invariants are those of construction: every object [ModelParameters(...)]
    returns satisfies them, and so does the nested model of every object
    [Algorithm(...)] returns when it was not given as an existing object. *)
Theorem C10_assignment_stores_unchecked :
  (forall p s, ModelParameters_setattr p s = Ok (ModelParameters_store p s))
  /\ (forall a s, Algorithm_setattr a s = Ok (Algorithm_store a s))
  /\ (forall args p, ModelParameters_init args = Ok p -> ModelParameters_valid p)
  /\ (forall args a,
        Algorithm_init args = Ok a ->
        not_an_instance (model_parameters_arg args) ->
        ModelParameters_valid (model_parameters a)).
Proof.
  split; [|split; [|split]].
  - intros p [v|v]; reflexivity.
  - intros a [v|v|v|v|v|v]; reflexivity.
  - apply ModelParameters_init_valid.
  - intros args a H Hn. apply Algorithm_init_inv in H as (_ & _ & _ & _ & _ & Hp).
    now apply model_parameters_field_valid in Hp.
Qed.

(** ** Further properties: failures and their error lines *)

Lemma nonempty_failure_Ok {A : Type} (r : Result A) :
  nonempty_failure r -> errors_of r = [] -> exists a, r = Ok a.
Proof. destruct r as [a|es]; simpl; [eauto | congruence]. Qed.

Lemma nonempty_failure_ap {A B : Type} (rf : Result (A -> B)) (ra : Result A) :
  nonempty_failure rf -> nonempty_failure ra -> nonempty_failure (rf <*> ra).
Proof.
  destruct rf as [f|es], ra as [a|es']; simpl; auto.
  - intros Hes _ H. apply app_eq_nil in H as [H _]. auto.
  - intros Hes _ H. apply app_eq_nil in H as [H _]. auto.
Qed.

Lemma nonempty_failure_required {I A : Type} (name : string) (data : PyVal)
    (validate : I -> Result A) (arg : option I) :
  (forall v, nonempty_failure (validate v)) ->
  nonempty_failure (required name data validate arg).
Proof. intros H. destruct arg; simpl; [apply H | discriminate]. Qed.

Lemma nonempty_failure_with_default {I A : Type} (default : A)
    (validate : I -> Result A) (arg : option I) :
  (forall v, nonempty_failure (validate v)) ->
  nonempty_failure (with_default default validate arg).
Proof. intros H. destruct arg; simpl; [apply H | constructor]. Qed.

Lemma nonempty_failure_enum_field (E : Type) `{StrEnum E} (u : bool) (name : string)
    (v : PyStr) :
  nonempty_failure (enum_field E u name v).
Proof.
  unfold enum_field, enum_schema. destruct (find _ members); simpl; [exact I | discriminate].
Qed.

Lemma nonempty_failure_depth_schema (v : Z) : nonempty_failure (depth_schema v).
Proof.
  unfold depth_schema, int_ge_le.
  destruct (v <? 1); [simpl; discriminate|].
  destruct (10 <? v); simpl; [discriminate | exact I].
Qed.

Lemma nonempty_failure_num_filters_base_schema (v : Z) :
  nonempty_failure (num_filters_base_schema v).
Proof.
  unfold num_filters_base_schema, field_validator.
  destruct (num_filter_base_must_even v) as [[m]|w]; simpl; [discriminate | exact I].
Qed.

Lemma nonempty_failure_masked_pixel_percentage_schema (v : float) :
  nonempty_failure (masked_pixel_percentage_schema v).
Proof.
  unfold masked_pixel_percentage_schema, float_ge_le.
  destruct (v <=? 20)%float; simpl; [|discriminate].
  destruct (0.1 <=? v)%float; simpl; [exact I | discriminate].
Qed.

Lemma ModelParameters_init_errors (raw : ModelParametersArgs) :
  errors_of (ModelParameters_init raw) = ModelParameters_field_errors raw.
Proof. unfold ModelParameters_init. now rewrite !errors_of_ap. Qed.

Lemma nonempty_failure_ModelParameters_init (raw : ModelParametersArgs) :
  nonempty_failure (ModelParameters_init raw).
Proof.
  unfold ModelParameters_init.
  repeat apply nonempty_failure_ap; try exact I.
  - apply nonempty_failure_with_default, nonempty_failure_depth_schema.
  - apply nonempty_failure_with_default, nonempty_failure_num_filters_base_schema.
Qed.

Lemma nonempty_failure_model_parameters_schema (v : ModelParametersInput) :
  nonempty_failure (model_parameters_schema v).
Proof.
  destruct v as [raw|p]; [|exact I].
  unfold model_parameters_schema.
  pose proof (nonempty_failure_ModelParameters_init raw) as H.
  destruct (ModelParameters_init raw) as [p|es]; simpl in *; [exact I|].
  destruct es; [congruence | discriminate].
Qed.

Lemma Algorithm_init_errors (args : AlgorithmArgs) :
  errors_of (Algorithm_init args) = Algorithm_field_errors args.
Proof.
  rewrite Algorithm_init_validate. unfold Algorithm_validate, Algorithm_field_errors.
  rewrite !errors_of_ap. cbn [errors_of app]. now rewrite <- !app_assoc.
Qed.

Lemma nonempty_failure_Algorithm_init (args : AlgorithmArgs) :
  nonempty_failure (Algorithm_init args).
Proof.
  rewrite Algorithm_init_validate. unfold Algorithm_validate.
  repeat apply nonempty_failure_ap; try exact I.
  - apply nonempty_failure_required. intros v. apply nonempty_failure_enum_field.
  - apply nonempty_failure_required. intros v. apply nonempty_failure_enum_field.
  - apply nonempty_failure_required. intros v. exact I.
  - apply nonempty_failure_with_default. intros v. apply nonempty_failure_enum_field.
  - apply nonempty_failure_with_default, nonempty_failure_masked_pixel_percentage_schema.
  - apply nonempty_failure_with_default, nonempty_failure_model_parameters_schema.
Qed.

(** X1.  [ModelParameters(...)] fails exactly when one of its two fields
    does.  A failure carries the lines of [depth] followed by those of
    [num_filters_base], at most one line for each field and at least one in
    all; no invalid field hides the other. *)
Theorem X1_ModelParameters_errors_aggregate (raw : ModelParametersArgs) :
  (ModelParameters_field_errors raw = [] ->
   exists p, ModelParameters_init raw = Ok p)
  /\ (ModelParameters_field_errors raw <> [] ->
      ModelParameters_init raw = ValidationError (ModelParameters_field_errors raw))
  /\ (List.length (errors_of (with_default 2%Z depth_schema (depth_arg raw))) <= 1)%nat
  /\ (List.length (errors_of (with_default 96%Z num_filters_base_schema
                           (num_filters_base_arg raw))) <= 1)%nat.
Proof.
  pose proof (ModelParameters_init_errors raw) as He.
  pose proof (nonempty_failure_ModelParameters_init raw) as Hn.
  split; [|split; [|split]].
  - intros H. apply nonempty_failure_Ok; congruence.
  - intros H. destruct (ModelParameters_init raw) as [p|es]; simpl in He.
    + congruence.
    + now rewrite He.
  - destruct (depth_arg raw) as [v|]; simpl; [|lia].
    unfold depth_schema, int_ge_le.
    destruct (v <? 1); [simpl; lia|]. destruct (10 <? v); simpl; lia.
  - destruct (num_filters_base_arg raw) as [v|]; simpl; [|lia].
    unfold num_filters_base_schema, field_validator.
    destruct (num_filter_base_must_even v) as [[m]|w]; simpl; lia.
Qed.

Lemma X1_ModelParameters_errors_aggregate_witness :
  ModelParameters_init {| depth_arg := Some 11; num_filters_base_arg := Some 7 |}
  = ValidationError
      [{| type := less_than_equal (PyInt 10); loc := ["depth"]; input := PyInt 11 |};
       num_filters_base_error (must_even_message 7) 7].
Proof.
  refine (proj1 (proj2 (X1_ModelParameters_errors_aggregate
                          {| depth_arg := Some 11; num_filters_base_arg := Some 7 |})) _).
  discriminate.
Defined.

(** ** Further properties: which calls succeed, and with what *)

Lemma depth_field_returns (d : option Z) (v : Z) :
  with_default 2 depth_schema d = Ok v -> depth_arg_ok d /\ v = or_default 2 d.
Proof.
  destruct d as [w|]; simpl.
  - intros H. apply depth_schema_returns in H as [-> H]. auto.
  - intros [= <-]. auto.
Qed.

Lemma num_filters_base_field_returns (n : option Z) (v : Z) :
  with_default 96 num_filters_base_schema n = Ok v ->
  num_filters_base_arg_ok n /\ v = or_default 96 n.
Proof.
  destruct n as [w|]; simpl.
  - intros H. apply num_filters_base_schema_returns in H as (-> & He & Hge). auto.
  - intros [= <-]. auto.
Qed.

Lemma ModelParameters_init_of_args (raw : ModelParametersArgs) :
  ModelParameters_args_ok raw ->
  ModelParameters_init raw = Ok (ModelParameters_of_args raw).
Proof.
  intros [Hd Hn]. unfold ModelParameters_init.
  now rewrite depth_field_accepts, num_filters_base_field_accepts.
Qed.

Lemma ModelParameters_init_args_ok (raw : ModelParametersArgs) (p : ModelParameters) :
  ModelParameters_init raw = Ok p ->
  ModelParameters_args_ok raw /\ p = ModelParameters_of_args raw.
Proof.
  unfold ModelParameters_init. intros H.
  apply ap_Ok_inv in H as (f & n & Hf & Hn & ->).
  apply ap_Ok_inv in Hf as (g & d & Hg & Hd & ->).
  injection Hg as <-.
  apply depth_field_returns in Hd as [Hd ->].
  apply num_filters_base_field_returns in Hn as [Hn ->].
  split; [split; assumption | reflexivity].
Qed.

Lemma ModelParameters_dump_args_ok (p : ModelParameters) :
  ModelParameters_args_ok (ModelParameters_model_dump p) <-> ModelParameters_valid p.
Proof.
  unfold ModelParameters_args_ok, ModelParameters_valid. simpl. tauto.
Qed.

Lemma ModelParameters_of_dump (p : ModelParameters) :
  ModelParameters_of_args (ModelParameters_model_dump p) = p.
Proof. now destruct p. Qed.

(** X2.  [ModelParameters(...)] succeeds exactly when each argument is
    omitted or valid on its own: a depth from 1 to 10, an even number of
    filters not below 8.  The object then holds the arguments given and the
    defaults 2 and 96 for the omitted ones. *)
Theorem X2_ModelParameters_succeeds_iff (raw : ModelParametersArgs) :
  (ModelParameters_args_ok raw ->
   ModelParameters_init raw = Ok (ModelParameters_of_args raw))
  /\ (forall p,
        ModelParameters_init raw = Ok p ->
        ModelParameters_args_ok raw /\ p = ModelParameters_of_args raw).
Proof.
  split.
  - apply ModelParameters_init_of_args.
  - apply ModelParameters_init_args_ok.
Qed.

Lemma X2_ModelParameters_succeeds_iff_witness :
  ModelParameters_init {| depth_arg := None; num_filters_base_arg := Some 32 |}
  = Ok {| depth := 2; num_filters_base := 32 |}.
Proof.
  refine (proj1 (X2_ModelParameters_succeeds_iff
                   {| depth_arg := None; num_filters_base_arg := Some 32 |}) _).
  split; [exact I | split; [reflexivity | discriminate]].
Defined.

(** X3.  Validating the dump of a [ModelParameters] object, whatever
    assignments it went through, succeeds exactly when the object satisfies
    the invariants, and then returns an object with the same fields: an
    assignment that broke an invariant is caught by building the object
    again from its dump. *)
Theorem X3_ModelParameters_revalidation (p : ModelParameters) :
  (ModelParameters_valid p ->
   ModelParameters_init (ModelParameters_model_dump p) = Ok p)
  /\ (forall q,
        ModelParameters_init (ModelParameters_model_dump p) = Ok q ->
        ModelParameters_valid p /\ q = p)
  /\ (~ ModelParameters_valid p ->
      exists es,
        ModelParameters_init (ModelParameters_model_dump p) = ValidationError es
        /\ es <> []).
Proof.
  split; [|split].
  - intros H. apply ModelParameters_dump_args_ok in H.
    apply ModelParameters_init_of_args in H. now rewrite ModelParameters_of_dump in H.
  - intros q H. apply ModelParameters_init_args_ok in H as [H ->].
    rewrite ModelParameters_of_dump. split; [|reflexivity].
    now apply ModelParameters_dump_args_ok.
  - intros Hn.
    pose proof (nonempty_failure_ModelParameters_init (ModelParameters_model_dump p)) as Hf.
    destruct (ModelParameters_init (ModelParameters_model_dump p)) as [q|es] eqn:E.
    + apply ModelParameters_init_args_ok in E as [E _].
      apply ModelParameters_dump_args_ok in E. contradiction.
    + eauto.
Qed.

Lemma X3_ModelParameters_revalidation_witness :
  exists es,
    ModelParameters_init
      (ModelParameters_model_dump
         (ModelParameters_store {| depth := 2; num_filters_base := 96 |}
            (set_num_filters_base 7)))
    = ValidationError es
    /\ es <> [].
Proof.
  refine (proj2 (proj2 (X3_ModelParameters_revalidation
                          (ModelParameters_store {| depth := 2; num_filters_base := 96 |}
                             (set_num_filters_base 7)))) _).
  intros (_ & He & _). discriminate.
Defined.

Lemma loss_schema_accepts (v : PyStr) :
  str_of v = "n2v" -> loss_schema v = Ok (Str "n2v").
Proof.
  intros H. unfold loss_schema, enum_field, enum_schema.
  change (find _ members) with (if String.eqb "n2v" (str_of v) then Some N2V else None).
  now rewrite H.
Qed.

Lemma loss_schema_returns (v s : PyStr) :
  loss_schema v = Ok s -> str_of v = "n2v" /\ s = Str "n2v".
Proof.
  unfold loss_schema, enum_field, enum_schema.
  change (find _ members) with (if String.eqb "n2v" (str_of v) then Some N2V else None).
  destruct (String.eqb_spec "n2v" (str_of v)) as [Heq|_]; simpl; [|discriminate].
  intros [= <-]. auto.
Qed.

Lemma model_schema_accepts (v : PyStr) :
  str_of v = "UNet" -> model_schema v = Ok (Str "UNet").
Proof.
  intros H. unfold model_schema, enum_field, enum_schema.
  change (find _ members) with (if String.eqb "UNet" (str_of v) then Some UNET else None).
  now rewrite H.
Qed.

Lemma model_schema_returns (v s : PyStr) :
  model_schema v = Ok s -> str_of v = "UNet" /\ s = Str "UNet".
Proof.
  unfold model_schema, enum_field, enum_schema.
  change (find _ members) with (if String.eqb "UNet" (str_of v) then Some UNET else None).
  destruct (String.eqb_spec "UNet" (str_of v)) as [Heq|_]; simpl; [|discriminate].
  intros [= <-]. auto.
Qed.

Lemma masking_strategy_schema_accepts (v : PyStr) :
  str_of v = "default" -> masking_strategy_schema v = Ok (Str "default").
Proof.
  intros H. unfold masking_strategy_schema, enum_field, enum_schema.
  change (find _ members)
    with (if String.eqb "default" (str_of v) then Some DEFAULT else None).
  now rewrite H.
Qed.

Lemma masking_strategy_schema_returns (v s : PyStr) :
  masking_strategy_schema v = Ok s -> str_of v = "default" /\ s = Str "default".
Proof.
  unfold masking_strategy_schema, enum_field, enum_schema.
  change (find _ members)
    with (if String.eqb "default" (str_of v) then Some DEFAULT else None).
  destruct (String.eqb_spec "default" (str_of v)) as [Heq|_]; simpl; [|discriminate].
  intros [= <-]. auto.
Qed.

Lemma masked_pixel_percentage_field_returns (arg : option float) (f : float) :
  with_default (masked_pixel_percentage_default evaluated_defaults)
    masked_pixel_percentage_schema arg = Ok f ->
  masked_pixel_percentage_arg_ok arg /\ f = or_default 0.2%float arg
  /\ (0.1 <=? f)%float = true /\ (f <=? 20)%float = true.
Proof.
  destruct arg as [v|]; simpl.
  - intros H. apply masked_pixel_percentage_schema_returns in H as (-> & Hlo & Hhi). auto.
  - intros [= <-]. repeat split.
Qed.

Lemma model_parameters_field_returns (arg : option ModelParametersInput)
    (p : ModelParameters) :
  with_default (model_parameters_default evaluated_defaults) model_parameters_schema arg
  = Ok p ->
  match arg with
  | None => p = {| depth := 2; num_filters_base := 96 |}
  | Some (Mapping raw) => ModelParameters_args_ok raw /\ p = ModelParameters_of_args raw
  | Some (Instance q) => p = q
  end.
Proof.
  destruct arg as [[raw|q]|]; simpl.
  - intros H%nested_Ok_inv. now apply ModelParameters_init_args_ok.
  - now intros [= <-].
  - now intros [= <-].
Qed.

Lemma Algorithm_init_of_args (args : AlgorithmArgs) (b : bool) :
  Algorithm_args_ok args -> is_3D_arg args = Some b ->
  Algorithm_init args = Ok (Algorithm_of_args args b).
Proof.
  intros ((l & Hl & Hlc) & (m & Hm & Hmc) & _ & Hs & Hf & Hp) Hb.
  apply Algorithm_init_intro with (l := l) (m := m); try assumption.
  - now apply loss_schema_accepts.
  - now apply model_schema_accepts.
  - destruct (masking_strategy_arg args) as [v|]; simpl in *; [|reflexivity].
    now apply masking_strategy_schema_accepts.
  - destruct (masked_pixel_percentage_arg args) as [v|]; simpl in *; [|reflexivity].
    destruct Hf. now apply masked_pixel_percentage_schema_accepts.
  - destruct (model_parameters_arg args) as [[raw|q]|]; simpl in *; try reflexivity.
    now rewrite ModelParameters_init_of_args.
Qed.

Lemma Algorithm_init_args_ok (args : AlgorithmArgs) (a : Algorithm) :
  Algorithm_init args = Ok a ->
  Algorithm_args_ok args /\ a = Algorithm_of_args args (is_3D a).
Proof.
  intros H. apply Algorithm_init_inv in H
    as ((l & Hl & Hl') & (m & Hm & Hm') & Hb & Hs & Hf & Hp).
  apply loss_schema_returns in Hl' as [Hlc Hla].
  apply model_schema_returns in Hm' as [Hmc Hma].
  apply masked_pixel_percentage_field_returns in Hf as (Hfok & Hfa & _).
  apply model_parameters_field_returns in Hp.
  assert (optional_enum_arg_is "default" (masking_strategy_arg args)
          /\ masking_strategy a
             = match masking_strategy_arg args with
               | None => Member (MaskingStrategiesMember DEFAULT)
               | Some _ => Str "default"
               end) as [Hsok Hsa].
  { destruct (masking_strategy_arg args) as [v|]; simpl in *.
    - now apply masking_strategy_schema_returns in Hs.
    - now injection Hs as <-. }
  split.
  - split; [now exists l|]. split; [now exists m|].
    split; [congruence|]. split; [assumption|]. split; [assumption|].
    destruct (model_parameters_arg args) as [[raw|q]|]; tauto.
  - destruct a as [la ma ba sa fa pa]. unfold Algorithm_of_args. simpl in *.
    subst la ma sa fa. f_equal.
    destruct (model_parameters_arg args) as [[raw|q]|]; tauto.
Qed.

Lemma Algorithm_of_args_own_fields_valid (args : AlgorithmArgs) (b : bool) :
  Algorithm_args_ok args -> Algorithm_own_fields_valid (Algorithm_of_args args b).
Proof.
  intros (_ & _ & _ & _ & Hf & _). unfold Algorithm_own_fields_valid, Algorithm_of_args.
  simpl. repeat split.
  - now destruct (masking_strategy_arg args).
  - destruct (masked_pixel_percentage_arg args); simpl in *; [tauto | reflexivity].
  - destruct (masked_pixel_percentage_arg args); simpl in *; [tauto | reflexivity].
Qed.

Lemma Algorithm_valid_split (a : Algorithm) :
  Algorithm_valid a
  <-> Algorithm_own_fields_valid a /\ ModelParameters_valid (model_parameters a).
Proof. unfold Algorithm_valid, Algorithm_own_fields_valid. tauto. Qed.

(** X4.  [Algorithm(...)] succeeds exactly when [loss] is given with the
    characters ["n2v"], [model] is given with the characters ["UNet"],
    [is_3D] is given, and each optional argument is omitted or valid:
    [masking_strategy] with the characters ["default"],
    [masked_pixel_percentage] from 0.1 to 20, [model_parameters] a valid
    mapping or any existing object of the class.  The object is then
    determined: the enumeration values as plain strings where an argument
    was given, the defaults elsewhere, an object given for
    [model_parameters] as it is. *)
Theorem X4_Algorithm_succeeds_iff (args : AlgorithmArgs) :
  (forall b,
      Algorithm_args_ok args -> is_3D_arg args = Some b ->
      Algorithm_init args = Ok (Algorithm_of_args args b))
  /\ (forall a,
        Algorithm_init args = Ok a ->
        Algorithm_args_ok args /\ a = Algorithm_of_args args (is_3D a)).
Proof.
  split.
  - intros b. apply Algorithm_init_of_args.
  - apply Algorithm_init_args_ok.
Qed.

Lemma X4_Algorithm_succeeds_iff_witness :
  Algorithm_init
    {| loss_arg := Some (Member (LossesMember N2V));
       model_arg := Some (Str "UNet");
       is_3D_arg := Some true;
       masking_strategy_arg := Some (Member (MaskingStrategiesMember DEFAULT));
       masked_pixel_percentage_arg := Some 5%float;
       model_parameters_arg :=
         Some (Mapping {| depth_arg := Some 4; num_filters_base_arg := None |}) |}
  = Ok {| loss := Str "n2v"; model := Str "UNet"; is_3D := true;
          masking_strategy := Str "default";
          masked_pixel_percentage := 5%float;
          model_parameters := {| depth := 4; num_filters_base := 96 |} |}.
Proof.
  refine (proj1 (X4_Algorithm_succeeds_iff
                   {| loss_arg := Some (Member (LossesMember N2V));
                      model_arg := Some (Str "UNet");
                      is_3D_arg := Some true;
                      masking_strategy_arg := Some (Member (MaskingStrategiesMember DEFAULT));
                      masked_pixel_percentage_arg := Some 5%float;
                      model_parameters_arg :=
                        Some (Mapping {| depth_arg := Some 4;
                                         num_filters_base_arg := None |}) |})
            true _ eq_refl).
  split; [eexists; split; reflexivity|].
  split; [eexists; split; reflexivity|].
  split; [discriminate|].
  split; [reflexivity|].
  split; [split; reflexivity|].
  split; [split; discriminate | exact I].
Defined.

(** X5.  Every object [Algorithm(...)] returns satisfies the invariants of
    the fields the class declares itself: [loss], [model] and
    [masking_strategy] have the characters ["n2v"], ["UNet"] and
    ["default"], and [masked_pixel_percentage] lies between 0.1 and 20.  It
    satisfies all the invariants, those of the nested model included,
    exactly when no existing object that breaks them was given for
    [model_parameters]. *)
Theorem X5_Algorithm_invariants (args : AlgorithmArgs) (a : Algorithm) :
  Algorithm_init args = Ok a ->
  Algorithm_own_fields_valid a
  /\ (Algorithm_valid a
      <-> forall p,
            model_parameters_arg args = Some (Instance p) -> ModelParameters_valid p).
Proof.
  intros H.
  pose proof (Algorithm_init_inv _ _ H) as (_ & _ & _ & _ & _ & Hp).
  apply Algorithm_init_args_ok in H as [Hok Ha].
  assert (Algorithm_own_fields_valid a) as Hown
    by (rewrite Ha; now apply Algorithm_of_args_own_fields_valid).
  split; [assumption|].
  rewrite Algorithm_valid_split. split.
  - intros [_ Hv] p Hinst. rewrite Hinst in Hp. simpl in Hp. now injection Hp as ->.
  - intros Hall. split; [assumption|].
    destruct (model_parameters_arg args) as [[raw|q]|] eqn:E.
    + now apply model_parameters_field_valid in Hp.
    + simpl in Hp. injection Hp as <-. now apply Hall.
    + now apply model_parameters_field_valid in Hp.
Qed.

Lemma X5_Algorithm_invariants_witness :
  Algorithm_own_fields_valid
    {| loss := Str "n2v"; model := Str "UNet"; is_3D := false;
       masking_strategy := Member (MaskingStrategiesMember DEFAULT);
       masked_pixel_percentage := 0.2%float;
       model_parameters := {| depth := 2; num_filters_base := 96 |} |}.
Proof.
  exact (proj1 (X5_Algorithm_invariants
                  (minimal_args (Str "n2v") (Str "UNet") false) _ eq_refl)).
Defined.

Lemma Algorithm_dump_args_ok (a : Algorithm) :
  Algorithm_args_ok (Algorithm_model_dump a) <-> Algorithm_valid a.
Proof.
  unfold Algorithm_args_ok, Algorithm_valid, enum_arg_is. simpl.
  rewrite ModelParameters_dump_args_ok. split.
  - intros ((l & [= <-] & Hl) & (m & [= <-] & Hm) & _ & Hs & [Hlo Hhi] & Hp). auto 10.
  - intros (Hl & Hm & Hs & Hlo & Hhi & Hp).
    split; [eauto|]. split; [eauto|]. split; [discriminate|]. auto.
Qed.

Lemma str_eq_chars (s : PyStr) (chars : string) :
  str_of s = chars -> str_eq s (Str chars) = true.
Proof. intros <-. apply String.eqb_refl. Qed.

(** X6.  Validating the dump of an [Algorithm] object, whatever assignments
    it went through, succeeds exactly when the object satisfies the
    invariants of the class; the object returned then compares equal to the
    one dumped and holds plain strings in its enumeration fields. *)
Theorem X6_Algorithm_revalidation (a : Algorithm) :
  (Algorithm_valid a ->
   exists b,
     Algorithm_init (Algorithm_model_dump a) = Ok b
     /\ Algorithm_eq a b = true
     /\ stores_enum_values b)
  /\ (forall b, Algorithm_init (Algorithm_model_dump a) = Ok b -> Algorithm_valid a).
Proof.
  split.
  - intros Hv. pose proof Hv as (Hl & Hm & Hs & Hlo & Hhi & Hp).
    apply Algorithm_dump_args_ok in Hv.
    apply Algorithm_init_of_args with (b := is_3D a) in Hv; [|reflexivity].
    eexists. split; [exact Hv|]. split; [|repeat split].
    unfold Algorithm_eq, Algorithm_of_args. simpl.
    rewrite (str_eq_chars _ _ Hl), (str_eq_chars _ _ Hm), (str_eq_chars _ _ Hs).
    rewrite Bool.eqb_reflx, (float_eqb_refl _ _ Hlo), ModelParameters_of_dump.
    now rewrite ModelParameters_eq_refl.
  - intros b H. apply Algorithm_init_args_ok in H as [H _].
    now apply Algorithm_dump_args_ok.
Qed.

Lemma X6_Algorithm_revalidation_witness :
  exists b,
    Algorithm_init
      (Algorithm_model_dump
         {| loss := Member (LossesMember N2V); model := Str "UNet"; is_3D := true;
            masking_strategy := Member (MaskingStrategiesMember DEFAULT);
            masked_pixel_percentage := 20%float;
            model_parameters := {| depth := 1; num_filters_base := 8 |} |}) = Ok b
    /\ Algorithm_eq
         {| loss := Member (LossesMember N2V); model := Str "UNet"; is_3D := true;
            masking_strategy := Member (MaskingStrategiesMember DEFAULT);
            masked_pixel_percentage := 20%float;
            model_parameters := {| depth := 1; num_filters_base := 8 |} |} b = true
    /\ stores_enum_values b.
Proof.
  refine (proj1 (X6_Algorithm_revalidation
                   {| loss := Member (LossesMember N2V); model := Str "UNet"; is_3D := true;
                      masking_strategy := Member (MaskingStrategiesMember DEFAULT);
                      masked_pixel_percentage := 20%float;
                      model_parameters := {| depth := 1; num_filters_base := 8 |} |}) _).
  repeat split; discriminate.
Defined.

Lemma enum_arg_is_same (chars : string) (x y : option PyStr) :
  same_characters x y -> enum_arg_is chars x -> enum_arg_is chars y.
Proof.
  unfold same_characters. intros H (v & -> & Hv).
  destruct y as [w|]; simpl in H; [|discriminate].
  injection H as H. exists w. split; congruence.
Qed.

Lemma optional_enum_arg_is_same (chars : string) (x y : option PyStr) :
  same_characters x y -> optional_enum_arg_is chars x -> optional_enum_arg_is chars y.
Proof.
  unfold same_characters. destruct x as [v|], y as [w|]; simpl; try discriminate; auto.
  intros [= H]. congruence.
Qed.

(** X7.  A call that gives an enumeration member where another gives the
    member's value, or the reverse, returns the very same object: when one
    of two such calls succeeds, so does the other, with an identical
    result. *)
Theorem X7_member_or_value (args args' : AlgorithmArgs) (a : Algorithm) :
  same_call_up_to_handles args args' ->
  Algorithm_init args = Ok a ->
  Algorithm_init args' = Ok a.
Proof.
  intros (Hl & Hm & Hb & Hs & Hf & Hp) H.
  pose proof (Algorithm_init_inv _ _ H) as (_ & _ & Hb3 & _).
  apply Algorithm_init_args_ok in H as [(Hlo & Hmo & Hbo & Hso & Hfo & Hpo) Ha].
  rewrite Ha.
  replace (Algorithm_of_args args (is_3D a)) with (Algorithm_of_args args' (is_3D a)).
  - apply Algorithm_init_of_args; [|congruence].
    split; [now apply enum_arg_is_same with (x := loss_arg args)|].
    split; [now apply enum_arg_is_same with (x := model_arg args)|].
    split; [congruence|].
    split; [now apply optional_enum_arg_is_same with (x := masking_strategy_arg args)|].
    split; [now rewrite <- Hf | now rewrite <- Hp].
  - unfold Algorithm_of_args. rewrite <- Hf, <- Hp.
    unfold same_characters in Hs.
    now destruct (masking_strategy_arg args), (masking_strategy_arg args').
Qed.

Lemma X7_member_or_value_witness :
  Algorithm_init
    {| loss_arg := Some (Member (LossesMember N2V));
       model_arg := Some (Member (ModelsMember UNET));
       is_3D_arg := Some false;
       masking_strategy_arg := Some (Member (MaskingStrategiesMember DEFAULT));
       masked_pixel_percentage_arg := None;
       model_parameters_arg := None |}
  = Ok {| loss := Str "n2v"; model := Str "UNet"; is_3D := false;
          masking_strategy := Str "default";
          masked_pixel_percentage := 0.2%float;
          model_parameters := {| depth := 2; num_filters_base := 96 |} |}.
Proof.
  refine (X7_member_or_value
            {| loss_arg := Some (Str "n2v");
               model_arg := Some (Str "UNet");
               is_3D_arg := Some false;
               masking_strategy_arg := Some (Str "default");
               masked_pixel_percentage_arg := None;
               model_parameters_arg := None |} _ _ _ eq_refl).
  repeat split.
Defined.

Lemma Algorithm_init_reports (args : AlgorithmArgs) (e : ErrorDetails) :
  In e (Algorithm_field_errors args) ->
  Algorithm_init args = ValidationError (Algorithm_field_errors args).
Proof.
  intros Hin. pose proof (Algorithm_init_errors args) as He.
  destruct (Algorithm_init args) as [a|es]; simpl in He.
  - rewrite <- He in Hin. destruct Hin.
  - now rewrite He.
Qed.

(** X8.  [Algorithm(...)] fails exactly when one of its six fields does.  A
    failure carries the lines of every failing field, in the order the
    fields are declared, the nested model's last: no invalid field hides
    another. *)
Theorem X8_Algorithm_errors_aggregate (args : AlgorithmArgs) :
  (Algorithm_field_errors args = [] -> exists a, Algorithm_init args = Ok a)
  /\ (Algorithm_field_errors args <> [] ->
      Algorithm_init args = ValidationError (Algorithm_field_errors args))
  /\ (forall es, Algorithm_init args = ValidationError es -> es <> []).
Proof.
  pose proof (Algorithm_init_errors args) as He.
  pose proof (nonempty_failure_Algorithm_init args) as Hn.
  split; [|split].
  - intros H. apply nonempty_failure_Ok; congruence.
  - intros H. destruct (Algorithm_init args) as [a|es]; simpl in He.
    + congruence.
    + now rewrite He.
  - intros es H. now rewrite H in Hn.
Qed.

Lemma X8_Algorithm_errors_aggregate_witness :
  Algorithm_init
    {| loss_arg := Some (Str "mse");
       model_arg := Some (Str "UNet");
       is_3D_arg := Some false;
       masking_strategy_arg := None;
       masked_pixel_percentage_arg := Some 50%float;
       model_parameters_arg :=
         Some (Mapping {| depth_arg := Some 0; num_filters_base_arg := Some 4 |}) |}
  = ValidationError
      [loss_error (Str "mse");
       {| type := less_than_equal (PyFloat 20%float);
          loc := ["masked_pixel_percentage"]; input := PyFloat 50%float |};
       {| type := greater_than_equal (PyInt 1);
          loc := ["model_parameters"; "depth"]; input := PyInt 0 |};
       {| type := value_error (at_least_8_message 4);
          loc := ["model_parameters"; "num_filters_base"]; input := PyInt 4 |}].
Proof.
  refine (proj1 (proj2 (X8_Algorithm_errors_aggregate
                          {| loss_arg := Some (Str "mse");
                             model_arg := Some (Str "UNet");
                             is_3D_arg := Some false;
                             masking_strategy_arg := None;
                             masked_pixel_percentage_arg := Some 50%float;
                             model_parameters_arg :=
                               Some (Mapping {| depth_arg := Some 0;
                                                num_filters_base_arg := Some 4 |})
                          |})) _).
  discriminate.
Defined.

Lemma missing_reported (args : AlgorithmArgs) (name : string) :
  In (missing_error name (Algorithm_data args)) (Algorithm_field_errors args) ->
  exists es,
    Algorithm_init args = ValidationError es
    /\ In (missing_error name (Algorithm_data args)) es.
Proof.
  intros Hin. exists (Algorithm_field_errors args). split; [|assumption].
  now apply Algorithm_init_reports in Hin.
Qed.

(** X9.  [loss], [model] and [is_3D] have no default: a call that omits one
    of them fails, whatever the other arguments are, with a [missing] line
    at that field that carries the mapping of the arguments given. *)
Theorem X9_mandatory_fields (args : AlgorithmArgs) :
  (loss_arg args = None ->
   exists es,
     Algorithm_init args = ValidationError es
     /\ In (missing_error "loss" (Algorithm_data args)) es)
  /\ (model_arg args = None ->
      exists es,
        Algorithm_init args = ValidationError es
        /\ In (missing_error "model" (Algorithm_data args)) es)
  /\ (is_3D_arg args = None ->
      exists es,
        Algorithm_init args = ValidationError es
        /\ In (missing_error "is_3D" (Algorithm_data args)) es).
Proof.
  split; [|split]; intros H; apply missing_reported;
    unfold Algorithm_field_errors; rewrite H; cbn [required errors_of].
  - apply in_or_app. left. now left.
  - apply in_or_app. right. apply in_or_app. left. now left.
  - do 2 (apply in_or_app; right). apply in_or_app. left. now left.
Qed.

Lemma X9_mandatory_fields_witness :
  exists es,
    Algorithm_init
      {| loss_arg := Some (Str "n2v"); model_arg := Some (Str "UNet");
         is_3D_arg := None; masking_strategy_arg := None;
         masked_pixel_percentage_arg := None; model_parameters_arg := None |}
    = ValidationError es
    /\ In (missing_error "is_3D"
             (PyDict [("loss", PyString (Str "n2v")); ("model", PyString (Str "UNet"))]))
          es.
Proof.
  exact (proj2 (proj2 (X9_mandatory_fields
                         {| loss_arg := Some (Str "n2v"); model_arg := Some (Str "UNet");
                            is_3D_arg := None; masking_strategy_arg := None;
                            masked_pixel_percentage_arg := None;
                            model_parameters_arg := None |})) eq_refl).
Defined.

(** X10.  When the mapping given for [model_parameters] is one that
    [ModelParameters(...)] rejects, [Algorithm(...)] fails and ends its
    error lines with those of the nested call, in the same order, each with
    the same kind and input and with [model_parameters] put in front of its
    field path. *)
Theorem X10_nested_error_paths (args : AlgorithmArgs) (raw : ModelParametersArgs)
    (es : list ErrorDetails) :
  model_parameters_arg args = Some (Mapping raw) ->
  ModelParameters_init raw = ValidationError es ->
  exists before,
    Algorithm_init args
    = ValidationError (before ++ map (under_field "model_parameters") es).
Proof.
  intros Hraw Hes.
  pose proof (nonempty_failure_ModelParameters_init raw) as Hn.
  rewrite Hes in Hn. simpl in Hn.
  destruct es as [|e es]; [congruence|].
  pose proof (Algorithm_init_reports args (under_field "model_parameters" e)) as Hr.
  unfold Algorithm_field_errors in *.
  rewrite Hraw in *. cbn [with_default] in *.
  unfold model_parameters_schema in *. rewrite Hes in *. cbn [nested errors_of] in *.
  change (map (fun e0 => {| type := type e0; loc := "model_parameters" :: loc e0;
                            input := input e0 |}) (e :: es))
    with (map (under_field "model_parameters") (e :: es)) in *.
  rewrite Hr.
  - rewrite !app_assoc. eexists. reflexivity.
  - repeat (apply in_or_app; right). now left.
Qed.

Lemma X10_nested_error_paths_witness :
  exists before,
    Algorithm_init
      {| loss_arg := Some (Str "n2v"); model_arg := Some (Str "UNet");
         is_3D_arg := Some true; masking_strategy_arg := None;
         masked_pixel_percentage_arg := None;
         model_parameters_arg :=
           Some (Mapping {| depth_arg := None; num_filters_base_arg := Some 9 |}) |}
    = ValidationError
        (before
         ++ map (under_field "model_parameters")
              [num_filters_base_error (must_even_message 9) 9]).
Proof.
  exact (X10_nested_error_paths
           {| loss_arg := Some (Str "n2v"); model_arg := Some (Str "UNet");
              is_3D_arg := Some true; masking_strategy_arg := None;
              masked_pixel_percentage_arg := None;
              model_parameters_arg :=
                Some (Mapping {| depth_arg := None; num_filters_base_arg := Some 9 |}) |}
           {| depth_arg := None; num_filters_base_arg := Some 9 |}
           _ eq_refl eq_refl).
Defined.

Lemma ModelParameters_explicit_ok (raw : ModelParametersArgs) :
  ModelParameters_args_ok (ModelParameters_explicit raw) <-> ModelParameters_args_ok raw.
Proof.
  unfold ModelParameters_args_ok, ModelParameters_explicit. simpl.
  destruct (depth_arg raw), (num_filters_base_arg raw); simpl; intuition (try lia).
Qed.

Lemma Algorithm_explicit_ok (args : AlgorithmArgs) :
  Algorithm_args_ok (Algorithm_explicit args) <-> Algorithm_args_ok args.
Proof.
  unfold Algorithm_args_ok, Algorithm_explicit. simpl.
  assert (optional_enum_arg_is "default" (masking_strategy_arg args)
          <-> str_of (or_default (Member (MaskingStrategiesMember DEFAULT))
                        (masking_strategy_arg args)) = "default") as ->
    by (destruct (masking_strategy_arg args); simpl; tauto).
  assert (masked_pixel_percentage_arg_ok (masked_pixel_percentage_arg args)
          <-> (0.1 <=? or_default 0.2 (masked_pixel_percentage_arg args))%float = true
              /\ (or_default 0.2 (masked_pixel_percentage_arg args) <=? 20)%float = true)
    as -> by (destruct (masked_pixel_percentage_arg args); simpl; tauto).
  destruct (model_parameters_arg args) as [[raw|q]|]; simpl;
    rewrite ?ModelParameters_explicit_ok; unfold ModelParameters_args_ok; simpl; tauto.
Qed.

(** X11.  Giving every omitted optional argument as the default of its
    field changes neither whether [Algorithm(...)] succeeds nor, up to [==],
    what it returns: the defaults of lines 51, 52 and 120-122 pass the
    checks of their own fields.  The object of the explicit call has the
    same nested model and percentage, and plain strings in its enumeration
    fields. *)
Theorem X11_explicit_defaults (args : AlgorithmArgs) :
  (forall a,
      Algorithm_init args = Ok a ->
      exists b,
        Algorithm_init (Algorithm_explicit args) = Ok b
        /\ Algorithm_eq a b = true
        /\ model_parameters b = model_parameters a
        /\ masked_pixel_percentage b = masked_pixel_percentage a
        /\ stores_enum_values b)
  /\ (forall b,
        Algorithm_init (Algorithm_explicit args) = Ok b ->
        exists a, Algorithm_init args = Ok a).
Proof.
  split.
  - intros a H.
    pose proof (Algorithm_init_inv _ _ H) as (_ & _ & Hb & _).
    apply Algorithm_init_args_ok in H as [Hok Ha].
    pose proof (Algorithm_of_args_own_fields_valid args (is_3D a) Hok) as Hv.
    rewrite <- Ha in Hv. destruct Hv as (Hl & Hm & Hs & Hlo & Hhi).
    exists (Algorithm_of_args (Algorithm_explicit args) (is_3D a)).
    split; [apply Algorithm_init_of_args; [now apply Algorithm_explicit_ok | exact Hb]|].
    assert (model_parameters (Algorithm_of_args (Algorithm_explicit args) (is_3D a))
            = model_parameters a) as Hmp.
    { rewrite Ha at 2. unfold Algorithm_of_args, Algorithm_explicit. simpl.
      now destruct (model_parameters_arg args) as [[raw|q]|]. }
    assert (masked_pixel_percentage (Algorithm_of_args (Algorithm_explicit args) (is_3D a))
            = masked_pixel_percentage a) as Hf.
    { rewrite Ha at 2. reflexivity. }
    split; [|split; [assumption | split; [assumption | repeat split]]].
    unfold Algorithm_eq. rewrite Hmp, Hf.
    cbn [Algorithm_of_args loss model is_3D masking_strategy Algorithm_explicit
         masking_strategy_arg].
    rewrite (str_eq_chars _ _ Hl), (str_eq_chars _ _ Hm), (str_eq_chars _ _ Hs).
    now rewrite Bool.eqb_reflx, (float_eqb_refl _ _ Hlo), ModelParameters_eq_refl.
  - intros b H. apply Algorithm_init_args_ok in H as [Hok _].
    apply (proj1 (Algorithm_explicit_ok args)) in Hok.
    assert (exists f, is_3D_arg args = Some f) as [f E].
    { destruct Hok as (_ & _ & Hb & _).
      destruct (is_3D_arg args) as [f|]; [eauto | now elim Hb]. }
    exists (Algorithm_of_args args f). now apply Algorithm_init_of_args.
Qed.

Lemma X11_explicit_defaults_witness :
  exists b,
    Algorithm_init
      {| loss_arg := Some (Str "n2v"); model_arg := Some (Str "UNet");
         is_3D_arg := Some false;
         masking_strategy_arg := Some (Member (MaskingStrategiesMember DEFAULT));
         masked_pixel_percentage_arg := Some 0.2%float;
         model_parameters_arg :=
           Some (Mapping {| depth_arg := Some 2; num_filters_base_arg := Some 96 |}) |}
    = Ok b
    /\ Algorithm_eq
         {| loss := Str "n2v"; model := Str "UNet"; is_3D := false;
            masking_strategy := Member (MaskingStrategiesMember DEFAULT);
            masked_pixel_percentage := 0.2%float;
            model_parameters := {| depth := 2; num_filters_base := 96 |} |} b = true
    /\ model_parameters b = {| depth := 2; num_filters_base := 96 |}
    /\ masked_pixel_percentage b = 0.2%float
    /\ stores_enum_values b.
Proof.
  exact (proj1 (X11_explicit_defaults (minimal_args (Str "n2v") (Str "UNet") false))
               _ eq_refl).
Defined.
